(** * Tool-Pattern: a function-calling agent (llm_tool_pattern_starter.py)

    A shallow embedding of the Python module [llm_tool_pattern_starter.py]:
    the tool-call parser [parse_tool_call], the registration decorator [tool],
    the agent loop [ToolAgent.run] and the tools [process_data] and [add],
    together with the parts of the Python run time they rest on (dynamically
    typed values, [re.sub], [json.loads], [json.dumps], the built-ins
    [len], [sum], [max], [in], [dict.get], [+], [/], [==], [>]).

    Conventions.
    - A Python [str] is a list of code points ([pystr]).
    - A Python [float] is a binary64 number ([PrimFloat.float]); conversions
      from integers and from decimal literals round to nearest, ties to even.
    - Python objects are the type [value]; a [dict] is an association list
      in insertion order with unique keys.
    - Code that may raise returns an [outcome]; exceptions are the instances of
      [Exception], which is what [except Exception] and the tools deal in.
    - The language model and the tools are outside the program: the model is a
      function from a conversation to a reply or an error, a tool body a
      function from its keyword arguments to a result or an error.  Each
      request to the model and each tool invocation is logged in a trace.
    - The texts of the interpreter's error messages and the docstrings are
      those of CPython 3.11.
    - Interpreter limits (recursion depth, the digit limit of [int]) and the
      signals that are not instances of [Exception] ([KeyboardInterrupt],
      [SystemExit]) are not modelled: [Json.dumps] is the text [json.dumps]
      returns where it returns.  [json_serializable] delimits the values on
      which it does under the limits the interpreter starts with; a property
      that depends on it says so.
    - The agent's tools are functions made by [def] ([pyfunc]).  The decorator
      is also modelled on the other callables it can be handed ([Callable]).
    - The two tools that fetch from the network, [search_hackernews] and
      [fetch_weather], are to the agent loop tools like any other: a function
      object whose calls return or raise.  Their bodies are modelled for
      string arguments, over a network ([Requests]) that answers a request
      with a response or an error. *)

From Stdlib Require Import ZArith NArith List Bool String Ascii Lia.
From Stdlib Require Import Floats DecimalString.
Import ListNotations.

Set Implicit Arguments.
Set Warnings "-register-all".
Open Scope Z_scope.

(* ================================================================== *)
(** * Python strings *)
(* ================================================================== *)

Module PyStr.

(** A code point. *)
Definition char := N.

(** A Python [str]. *)
Definition pystr := list char.

Definition chr (a : ascii) : char := N_of_ascii a.

(** The double quote, [chr(34)]. *)
Definition dquote : char := 34%N.

(** The [str] written as an (ASCII) literal in the source. *)
Definition py (s : string) : pystr := map chr (list_ascii_of_string s).

(** A literal in which each backquote stands for a double quote. *)
Definition pyq (s : string) : pystr :=
  map (fun c => if N.eqb c (chr "`") then dquote else c) (py s).

Fixpoint eqb (s t : pystr) : bool :=
  match s, t with
  | [], [] => true
  | c :: s', d :: t' => N.eqb c d && eqb s' t'
  | _, _ => false
  end.

(** [s < t], comparing code points. *)
Fixpoint ltb (s t : pystr) : bool :=
  match s, t with
  | _, [] => false
  | [], _ :: _ => true
  | c :: s', d :: t' => N.ltb c d || (N.eqb c d && ltb s' t')
  end.

(** [t.startswith(p)] *)
Fixpoint startswith (p t : pystr) : bool :=
  match p, t with
  | [], _ => true
  | _ :: _, [] => false
  | c :: p', d :: t' => N.eqb c d && startswith p' t'
  end.

(** [p in t] for two strings: [p] occurs in [t] as a substring. *)
Fixpoint contains (p t : pystr) : bool :=
  startswith p t ||
  match t with
  | [] => false
  | _ :: t' => contains p t'
  end.

(** [sep.join(parts)] *)
Fixpoint join (sep : pystr) (parts : list pystr) : pystr :=
  match parts with
  | [] => []
  | [p] => p
  | p :: rest => p ++ sep ++ join sep rest
  end.

(** [str(n)] and [repr(n)] for an [int]. *)
Definition of_Z (n : Z) : pystr := py (NilZero.string_of_int (Z.to_int n)).

End PyStr.
Export PyStr.

Declare Scope py_scope.
Delimit Scope py_scope with py.
Notation "c =c a" := (N.eqb c (chr a%char)) (at level 70, no associativity) : py_scope.

(* ================================================================== *)
(** * Python floats (binary64) *)
(* ================================================================== *)

Module PyFloat.

Definition prec : Z := 53.
Definition emax : Z := 1024.

(** The binary64 number nearest to [p / q] (ties to even), with sign [neg];
    [0 <= p], [0 < q].  The quotient is taken with at least 55 significant
    bits and the position of the remainder, then rounded. *)
Definition ratio (neg : bool) (p q : Z) : spec_float :=
  if p =? 0 then S754_zero neg
  else
    let k := Z.max 0 (Z.log2 q - Z.log2 p + 56) in
    let '(m, r) := Z.div_eucl (Z.shiftl p k) q in
    binary_round_aux prec emax neg m (- k) (new_location q r).

(** [float(n)] for an [int]: [None] stands for [OverflowError]. *)
Definition of_Z (n : Z) : option float :=
  match binary_normalize prec emax n 0 false with
  | S754_infinity _ => None
  | f => Some (SF2Prim f)
  end.

(** [a / b] for two [int]s with [b <> 0], correctly rounded: [None] stands
    for [OverflowError]. *)
Definition truediv_Z (a b : Z) : option float :=
  match ratio (xorb (a <? 0) (b <? 0)) (Z.abs a) (Z.abs b) with
  | S754_infinity _ => None
  | f => Some (SF2Prim f)
  end.

(** [float(lit)] for the decimal literal [-? mant * 10^exp10], [0 <= mant];
    too large a literal gives an infinity. *)
Definition of_decimal (neg : bool) (mant exp10 : Z) : float :=
  SF2Prim (if 0 <=? exp10 then ratio neg (mant * 10 ^ exp10) 1
           else ratio neg mant (10 ^ (- exp10))).

(** [bool(f)] *)
Definition truthy (f : float) : bool := negb (PrimFloat.eqb f 0%float).

(** Exact comparison of an [int] with a [float]; [None] for a NaN. *)
Definition compare_Z (n : Z) (f : float) : option comparison :=
  match Prim2SF f with
  | S754_nan => None
  | S754_zero _ => Some (n ?= 0)
  | S754_infinity s => Some (if s then Gt else Lt)
  | S754_finite s m e =>
      let v := if s then Z.neg m else Z.pos m in
      Some (if 0 <=? e then n ?= v * 2 ^ e else n * 2 ^ (- e) ?= v)
  end.

(** Comparison of two [float]s; [None] when one is a NaN. *)
Definition compare (f g : float) : option comparison :=
  match PrimFloat.compare f g with
  | FEq => Some Eq
  | FLt => Some Lt
  | FGt => Some Gt
  | FNotComparable => None
  end.

(** ** [repr] of a float

    [float.__repr__] prints the shortest decimal digit string that reads back
    as the same float, the nearest one when several have that length, in
    positional notation when the decimal point falls within the first 16
    digits or at most three zeros before them, with an exponent otherwise. *)

(** [10^k <= p / q], for [0 < p], [0 < q]. *)
Definition pow10_le (k p q : Z) : bool :=
  if 0 <=? k then 10 ^ k * q <=? p else q <=? p * 10 ^ (- k).

Definition ndigits (n : Z) : Z := Z.of_nat (List.length (PyStr.of_Z n)).

(** [floor (log10 (p / q))] *)
Definition floor_log10 (p q : Z) : Z :=
  let k := ndigits p - ndigits q in
  if pow10_le k p q then k else k - 1.

(** The [n]-digit decimals just below and just above [p / q], as
    [d * 10^x]: the one that reads back as [f], the nearer one if both do. *)
Definition candidate (f : float) (p q k n : Z) : option (Z * Z) :=
  let x := k - n + 1 in
  let num := if 0 <=? x then p else p * 10 ^ (- x) in
  let den := if 0 <=? x then q * 10 ^ x else q in
  let '(lo, r) := Z.div_eucl num den in
  let hi := lo + 1 in
  let ok d := PrimFloat.eqb (of_decimal false d x) f in
  let lo_ok := ok lo in
  let hi_ok := negb (r =? 0) && ok hi in
  if lo_ok && hi_ok then
    match 2 * r ?= den with
    | Lt => Some (lo, x)
    | Gt => Some (hi, x)
    | Eq => Some (if Z.even lo then lo else hi, x)
    end
  else if lo_ok then Some (lo, x)
  else if hi_ok then Some (hi, x)
  else None.

(** The shortest decimal that reads back as [f], trying [n], [n + 1], ...
    digits; seventeen digits always do. *)
Fixpoint shortest (fuel : nat) (f : float) (p q k n : Z) : Z * Z :=
  match fuel with
  | O => (0, 0)
  | S fuel' =>
      match candidate f p q k n with
      | Some dx => dx
      | None => shortest fuel' f p q k (n + 1)
      end
  end.

(** Trailing zeros of the digit string move into the exponent. *)
Fixpoint strip_zeros (fuel : nat) (d x : Z) : Z * Z :=
  match fuel with
  | O => (d, x)
  | S fuel' =>
      if (d mod 10 =? 0) && negb (d =? 0) then strip_zeros fuel' (d / 10) (x + 1)
      else (d, x)
  end.

Definition zeros (n : Z) : pystr := repeat (chr "0") (Z.to_nat n).

(** The digits [ds] with the decimal point after the first [decpt] of them. *)
Definition format_short (ds : pystr) (decpt : Z) : pystr :=
  let len := Z.of_nat (List.length ds) in
  if (decpt <=? -4) || (16 <? decpt) then
    let e := decpt - 1 in
    let mant := match ds with
                | [] => []
                | [c] => [c]
                | c :: rest => c :: chr "." :: rest
                end in
    let edigits := PyStr.of_Z (Z.abs e) in
    mant ++ [chr "e"; if e <? 0 then chr "-" else chr "+"]
         ++ (if Z.abs e <? 10 then [chr "0"] else []) ++ edigits
  else if decpt <=? 0 then
    py "0." ++ zeros (- decpt) ++ ds
  else if decpt <? len then
    firstn (Z.to_nat decpt) ds ++ [chr "."] ++ skipn (Z.to_nat decpt) ds
  else
    ds ++ zeros (decpt - len) ++ py ".0".

(** [repr(f)] for a finite [f]; an infinity or a NaN as [str] gives them. *)
Definition repr (f : float) : pystr :=
  match Prim2SF f with
  | S754_nan => py "nan"
  | S754_infinity s => if s then py "-inf" else py "inf"
  | S754_zero s => if s then py "-0.0" else py "0.0"
  | S754_finite s m e =>
      let p := if 0 <=? e then Z.pos m * 2 ^ e else Z.pos m in
      let q := if 0 <=? e then 1 else 2 ^ (- e) in
      let k := floor_log10 p q in
      let '(d, x) := shortest 17 (PrimFloat.abs f) p q k 1 in
      let '(d, x) := strip_zeros 17 d x in
      let ds := PyStr.of_Z d in
      (if s then [chr "-"] else [])
        ++ format_short ds (Z.of_nat (List.length ds) + x)
  end.

End PyFloat.

(* ================================================================== *)
(** * Python values, exceptions and outcomes *)
(* ================================================================== *)

(** The objects the program handles: what [json.loads] builds and what the
    tools take and return. *)
Inductive value : Type :=
| VNone
| VBool (b : bool)
| VInt (n : Z)
| VFloat (f : float)
| VStr (s : pystr)
| VList (l : list value)
| VDict (d : list (pystr * value)).

(** A [dict] with [str] keys, in insertion order, keys unique. *)
Definition dict := list (pystr * value).

(** An instance of [Exception]: its class name and what [str(e)] gives. *)
Record exn : Type := Exn { exn_class : pystr; exn_str : pystr }.

Definition AttributeError (msg : pystr) : exn := Exn (py "AttributeError") msg.
Definition TypeError (msg : pystr) : exn := Exn (py "TypeError") msg.
Definition ZeroDivisionError (msg : pystr) : exn := Exn (py "ZeroDivisionError") msg.
Definition OverflowError (msg : pystr) : exn := Exn (py "OverflowError") msg.

(** What evaluating an expression or calling a function gives. *)
Inductive outcome (A : Type) : Type :=
| Return (a : A)
| Raise (e : exn).
Arguments Return {A} a.
Arguments Raise {A} e.

Definition bind {A B : Type} (m : outcome A) (k : A -> outcome B) : outcome B :=
  match m with
  | Return a => k a
  | Raise e => Raise e
  end.

Notation "x <- m ;; k" := (bind m (fun x => k))
  (at level 61, m at next level, right associativity) : py_scope.

Open Scope py_scope.

Module Dict.

Section Ops.
Variable A : Type.

(** [key in d] and [d[key]] *)
Fixpoint lookup (d : list (pystr * A)) (key : pystr) : option A :=
  match d with
  | [] => None
  | (k, v) :: d' => if PyStr.eqb k key then Some v else lookup d' key
  end.

(** [d[key] = v]: an existing key keeps its place. *)
Fixpoint set (d : list (pystr * A)) (key : pystr) (v : A) : list (pystr * A) :=
  match d with
  | [] => [(key, v)]
  | (k, w) :: d' =>
      if PyStr.eqb k key then (k, v) :: d' else (k, w) :: set d' key v
  end.

Definition mem (d : list (pystr * A)) (key : pystr) : bool :=
  match lookup d key with Some _ => true | None => false end.
End Ops.

End Dict.

(** [type(v).__name__] *)
Definition type_name (v : value) : pystr :=
  match v with
  | VNone => py "NoneType"
  | VBool _ => py "bool"
  | VInt _ => py "int"
  | VFloat _ => py "float"
  | VStr _ => py "str"
  | VList _ => py "list"
  | VDict _ => py "dict"
  end.

Definition quoted (s : pystr) : pystr := chr "'" :: s ++ [chr "'"].

(** [bool(v)], the test of [if v:]. *)
Definition truthy (v : value) : bool :=
  match v with
  | VNone => false
  | VBool b => b
  | VInt n => negb (n =? 0)
  | VFloat f => PyFloat.truthy f
  | VStr s => match s with [] => false | _ => true end
  | VList l => match l with [] => false | _ => true end
  | VDict d => match d with [] => false | _ => true end
  end.

(** ** Numbers: [bool] is an [int], and [int] and [float] compare exactly. *)

Definition as_num (v : value) : option (Z + float) :=
  match v with
  | VBool b => Some (inl (if b then 1 else 0))
  | VInt n => Some (inl n)
  | VFloat f => Some (inr f)
  | _ => None
  end.

Definition num_compare (a b : Z + float) : option comparison :=
  match a, b with
  | inl m, inl n => Some (m ?= n)
  | inl m, inr g => PyFloat.compare_Z m g
  | inr f, inl n => option_map CompOpp (PyFloat.compare_Z n f)
  | inr f, inr g => PyFloat.compare f g
  end.

Definition num_eqb (a b : Z + float) : bool :=
  match num_compare a b with Some Eq => true | _ => false end.

Definition num_gtb (a b : Z + float) : bool :=
  match num_compare a b with Some Gt => true | _ => false end.

(** [float(a)] for a number. *)
Definition num_to_float (a : Z + float) : outcome float :=
  match a with
  | inl n =>
      match PyFloat.of_Z n with
      | Some f => Return f
      | None => Raise (OverflowError (py "int too large to convert to float"))
      end
  | inr f => Return f
  end.

(** ** [v == w]: numbers by value, lists item by item, dicts key by key.
    (Objects have no identity here: a NaN inside a list is not equal to
    itself, as two NaNs decoded separately are not in Python.) *)
Fixpoint py_eq (v w : value) {struct v} : bool :=
  match v, w with
  | VNone, VNone => true
  | VStr s, VStr t => PyStr.eqb s t
  | VList l, VList m =>
      (fix all2 (l m : list value) {struct l} : bool :=
         match l, m with
         | [], [] => true
         | x :: l', y :: m' => py_eq x y && all2 l' m'
         | _, _ => false
         end) l m
  | VDict d, VDict e =>
      Nat.eqb (List.length d) (List.length e) &&
      forallb (fun '(k, x) =>
                 match Dict.lookup e k with
                 | Some y => py_eq x y
                 | None => false
                 end) d
  | _, _ =>
      match as_num v, as_num w with
      | Some a, Some b => num_eqb a b
      | _, _ => false
      end
  end.

Definition not_supported (op : pystr) (v w : value) : exn :=
  TypeError (quoted op ++ py " not supported between instances of "
               ++ quoted (type_name v) ++ py " and " ++ quoted (type_name w)).

(** ** [v > w]: numbers by value, strings and lists in dictionary order;
    nothing else is ordered. *)
Fixpoint py_gt (v w : value) {struct v} : outcome bool :=
  match v, w with
  | VStr s, VStr t => Return (PyStr.ltb t s)
  | VList l, VList m =>
      (fix lex (l m : list value) {struct l} : outcome bool :=
         match l, m with
         | [], _ => Return false
         | _ :: _, [] => Return true
         | x :: l', y :: m' => if py_eq x y then lex l' m' else py_gt x y
         end) l m
  | _, _ =>
      match as_num v, as_num w with
      | Some a, Some b => Return (num_gtb a b)
      | _, _ => Raise (not_supported (py ">") v w)
      end
  end.

Definition unsupported_operand (op : pystr) (v w : value) : exn :=
  TypeError (py "unsupported operand type(s) for " ++ op ++ py ": "
               ++ quoted (type_name v) ++ py " and " ++ quoted (type_name w)).

Definition can_only_concatenate (v w : value) : exn :=
  TypeError (py "can only concatenate " ++ type_name v ++ py " (not "
               ++ [dquote] ++ type_name w ++ [dquote] ++ py ") to "
               ++ type_name v).

(** ** [v + w] *)
Definition py_add (v w : value) : outcome value :=
  match v, w with
  | VStr s, VStr t => Return (VStr (s ++ t))
  | VStr _, _ => Raise (can_only_concatenate v w)
  | VList l, VList m => Return (VList (l ++ m))
  | VList _, _ => Raise (can_only_concatenate v w)
  | _, _ =>
      match as_num v, as_num w with
      | Some (inl m), Some (inl n) => Return (VInt (m + n))
      | Some a, Some b =>
          f <- num_to_float a ;;
          g <- num_to_float b ;;
          Return (VFloat (PrimFloat.add f g))
      | _, _ => Raise (unsupported_operand (py "+") v w)
      end
  end.

(** ** [v / w] *)
Definition py_truediv (v w : value) : outcome value :=
  match as_num v, as_num w with
  | Some (inl m), Some (inl n) =>
      if n =? 0 then Raise (ZeroDivisionError (py "division by zero"))
      else match PyFloat.truediv_Z m n with
           | Some f => Return (VFloat f)
           | None => Raise (OverflowError
                              (py "integer division result too large for a float"))
           end
  | Some a, Some b =>
      f <- num_to_float a ;;
      g <- num_to_float b ;;
      if PrimFloat.eqb g 0%float
      then Raise (ZeroDivisionError (py "float division by zero"))
      else Return (VFloat (PrimFloat.div f g))
  | _, _ => Raise (unsupported_operand (py "/") v w)
  end.

(** ** [len(v)] *)
Definition py_len (v : value) : outcome Z :=
  match v with
  | VStr s => Return (Z.of_nat (List.length s))
  | VList l => Return (Z.of_nat (List.length l))
  | VDict d => Return (Z.of_nat (List.length d))
  | _ => Raise (TypeError (py "object of type " ++ quoted (type_name v)
                             ++ py " has no len()"))
  end.

(** ** [for x in v]: the items a loop over [v] visits. *)
Definition py_iter (v : value) : outcome (list value) :=
  match v with
  | VStr s => Return (map (fun c => VStr [c]) s)
  | VList l => Return l
  | VDict d => Return (map (fun kv => VStr (fst kv)) d)
  | _ => Raise (TypeError (quoted (type_name v) ++ py " object is not iterable"))
  end.

(** ** [key in v], for a string [key]. *)
Definition py_in (key : pystr) (v : value) : outcome bool :=
  match v with
  | VStr s => Return (PyStr.contains key s)
  | VList l => Return (existsb (py_eq (VStr key)) l)
  | VDict d => Return (Dict.mem d key)
  | _ => Raise (TypeError (py "argument of type " ++ quoted (type_name v)
                             ++ py " is not iterable"))
  end.

(** ** [v.get(key, default)]: only a [dict] has the method. *)
Definition py_get (v : value) (key : pystr) (default : value) : outcome value :=
  match v with
  | VDict d =>
      Return (match Dict.lookup d key with Some x => x | None => default end)
  | _ => Raise (AttributeError (quoted (type_name v)
                                  ++ py " object has no attribute 'get'"))
  end.

(** ** [sum(items)]: from [0], adding from left to right.  (For floats
    CPython 3.12 and later compensate the rounding errors of the additions,
    which can change the last place; sums of [int]s are exact.) *)
Fixpoint sum_from (acc : value) (items : list value) : outcome value :=
  match items with
  | [] => Return acc
  | x :: rest => acc' <- py_add acc x ;; sum_from acc' rest
  end.

Definition py_sum (items : list value) : outcome value := sum_from (VInt 0) items.

(** ** [max(items, key=key, default=default)]: an item replaces the best so
    far when its key is greater, so the first of the greatest wins. *)
Fixpoint max_from (key : value -> outcome value) (best bestk : value)
    (items : list value) : outcome value :=
  match items with
  | [] => Return best
  | x :: rest =>
      k <- key x ;;
      gt <- py_gt k bestk ;;
      if gt then max_from key x k rest else max_from key best bestk rest
  end.

Definition py_max (items : list value) (key : value -> outcome value)
    (default : value) : outcome value :=
  match items with
  | [] => Return default
  | x :: rest => k <- key x ;; max_from key x k rest
  end.

(* ================================================================== *)
(** * [re.sub(r'</?tool_call>', '', text)] *)
(* ================================================================== *)

Module Re.

Definition open_tag : pystr := py "<tool_call>".
Definition close_tag : pystr := py "</tool_call>".

(** The scan of [re.sub] from left to right: where the pattern matches (an
    opening or a closing tag starts here) the match is dropped and the scan
    resumes after it; elsewhere the character is kept.  [skip] counts the
    characters of the current match still to drop. *)
Fixpoint sub_from (skip : nat) (text : pystr) : pystr :=
  match text with
  | [] => []
  | c :: rest =>
      match skip with
      | S k => sub_from k rest
      | O =>
          if startswith open_tag text
          then sub_from (List.length open_tag - 1) rest
          else if startswith close_tag text
          then sub_from (List.length close_tag - 1) rest
          else c :: sub_from 0 rest
      end
  end.

Definition sub_tool_call (text : pystr) : pystr := sub_from 0 text.

End Re.

(* ================================================================== *)
(** * [json.loads] and [json.dumps] *)
(* ================================================================== *)

Module Json.

(** ** Decoding, after CPython's scanner ([scan_once], [scanstring],
    [_match_number], [JSONObject], [JSONArray]). *)

(** The result of scanning a term at the head of the input: the term and
    the input after it, a syntax error, or recursion fuel used up. *)
Inductive scan (A : Type) : Type :=
| Scanned (a : A) (rest : pystr)
| Invalid
| TooDeep.
Arguments Scanned {A} a rest.
Arguments Invalid {A}.
Arguments TooDeep {A}.

Definition is_ws (c : char) : bool :=
  (c =c " ") || (c =? 9)%N || (c =? 10)%N || (c =? 13)%N.

Fixpoint skip_ws (s : pystr) : pystr :=
  match s with
  | [] => []
  | c :: rest => if is_ws c then skip_ws rest else s
  end.

Definition is_digit (c : char) : bool := (48 <=? c)%N && (c <=? 57)%N.

Definition hex_digit (c : char) : option N :=
  if is_digit c then Some (c - 48)%N
  else if (97 <=? c)%N && (c <=? 102)%N then Some (c - 87)%N
  else if (65 <=? c)%N && (c <=? 70)%N then Some (c - 55)%N
  else None.

Definition hex4 (a b c d : char) : option N :=
  match hex_digit a, hex_digit b, hex_digit c, hex_digit d with
  | Some x, Some y, Some z, Some w => Some (((x * 16 + y) * 16 + z) * 16 + w)%N
  | _, _, _, _ => None
  end.

Definition is_high_surrogate (u : N) : bool := (55296 <=? u)%N && (u <=? 56319)%N.
Definition is_low_surrogate (u : N) : bool := (56320 <=? u)%N && (u <=? 57343)%N.
Definition join_surrogates (hi lo : N) : N :=
  (65536 + ((hi - 55296) * 1024 + (lo - 56320)))%N.

(** The character a one-letter escape stands for. *)
Definition unescape (e : char) : option char :=
  if (e =? dquote)%N then Some dquote
  else if e =c "\" then Some (chr "\")
  else if e =c "/" then Some (chr "/")
  else if e =c "b" then Some 8%N
  else if e =c "f" then Some 12%N
  else if e =c "n" then Some 10%N
  else if e =c "r" then Some 13%N
  else if e =c "t" then Some 9%N
  else None.

(** The string whose opening quote has just been read ([strict] mode: raw
    control characters are refused).  [acc] holds the characters decoded so
    far, last first. *)
Fixpoint scanstring (s : pystr) (acc : pystr) {struct s} : option (pystr * pystr) :=
  match s with
  | [] => None
  | c :: r =>
      if (c =? dquote)%N then Some (rev acc, r)
      else if c =c "\" then
        match r with
        | [] => None
        | e :: r1 =>
            if e =c "u" then
              match r1 with
              | h1 :: h2 :: h3 :: h4 :: r2 =>
                  match hex4 h1 h2 h3 h4 with
                  | None => None
                  | Some u =>
                      if is_high_surrogate u then
                        match r2 with
                        | b :: e2 :: g1 :: g2 :: g3 :: g4 :: r3 =>
                            if (b =c "\") && (e2 =c "u") then
                              match hex4 g1 g2 g3 g4 with
                              | None => None
                              | Some u2 =>
                                  if is_low_surrogate u2
                                  then scanstring r3 (join_surrogates u u2 :: acc)
                                  else scanstring r2 (u :: acc)
                              end
                            else scanstring r2 (u :: acc)
                        | _ => scanstring r2 (u :: acc)
                        end
                      else scanstring r2 (u :: acc)
                  end
              | _ => None
              end
            else
              match unescape e with
              | Some c' => scanstring r1 (c' :: acc)
              | None => None
              end
        end
      else if (c <=? 31)%N then None
      else scanstring r (c :: acc)
  end.

(** The longest run of digits at the head of [s], and what follows it. *)
Fixpoint span_digits (s : pystr) : pystr * pystr :=
  match s with
  | c :: r =>
      if is_digit c then let '(ds, rest) := span_digits r in (c :: ds, rest)
      else ([], s)
  | [] => ([], [])
  end.

Definition digits_value (ds : pystr) : Z :=
  fold_left (fun acc c => acc * 10 + Z.of_N (c - 48)) ds 0.

(** The exponent part at the head of [s], if any: [e] or [E], an optional
    sign, and at least one digit. *)
Definition scan_exponent (s : pystr) : option (Z * pystr) :=
  match s with
  | e :: r =>
      if (e =c "e") || (e =c "E") then
        let '(neg, r1) :=
          match r with
          | sg :: r' =>
              if sg =c "-" then (true, r')
              else if sg =c "+" then (false, r')
              else (false, r)
          | [] => (false, r)
          end in
        match span_digits r1 with
        | ([], _) => None
        | (ds, rest) =>
            Some (if neg then - digits_value ds else digits_value ds, rest)
        end
      else None
  | [] => None
  end.

(** A number at the head of [s]: an optional minus sign, then [0] or a run
    of digits not starting with [0], then optionally a point and digits,
    then optionally an exponent; an [int] without fraction and exponent, a
    [float] otherwise. *)
Definition match_number (s : pystr) : scan value :=
  let '(neg, s1) :=
    match s with
    | c :: r => if c =c "-" then (true, r) else (false, s)
    | [] => (false, s)
    end in
  match s1 with
  | [] => Invalid
  | c :: r =>
      if is_digit c then
        let '(ids, s2) :=
          if c =c "0" then ([c], r)
          else let '(ds, rest) := span_digits r in (c :: ds, rest) in
        let '(fds, s3) :=
          match s2 with
          | dot :: d :: r' =>
              if (dot =c ".") && is_digit d then span_digits (d :: r')
              else ([], s2)
          | _ => ([], s2)
          end in
        match fds, scan_exponent s3 with
        | [], None =>
            Scanned (VInt (if neg then - digits_value ids else digits_value ids)) s3
        | _, None =>
            Scanned (VFloat (PyFloat.of_decimal neg (digits_value (ids ++ fds))
                               (- Z.of_nat (List.length fds)))) s3
        | _, Some (x, s4) =>
            Scanned (VFloat (PyFloat.of_decimal neg (digits_value (ids ++ fds))
                               (x - Z.of_nat (List.length fds)))) s4
        end
      else Invalid
  end.

(** The items of an array, the first of which starts at the head of [s];
    [scan_once] scans one term, [n] bounds the number of items. *)
Fixpoint JSONArray (scan_once : pystr -> scan value) (n : nat) (s : pystr)
    (acc : list value) : scan (list value) :=
  match n with
  | O => TooDeep
  | S n' =>
      match scan_once s with
      | Scanned v r =>
          match skip_ws r with
          | c :: r' =>
              if c =c "]" then Scanned (rev (v :: acc)) r'
              else if c =c "," then JSONArray scan_once n' (skip_ws r') (v :: acc)
              else Invalid
          | [] => Invalid
          end
      | Invalid => Invalid
      | TooDeep => TooDeep
      end
  end.

(** The pairs of an object, the first key of which is expected at the head
    of [s].  A key met again takes the new value and keeps its place. *)
Fixpoint JSONObject (scan_once : pystr -> scan value) (n : nat) (s : pystr)
    (acc : dict) : scan dict :=
  match n with
  | O => TooDeep
  | S n' =>
      match s with
      | q :: r =>
          if (q =? dquote)%N then
            match scanstring r [] with
            | None => Invalid
            | Some (key, r1) =>
                match skip_ws r1 with
                | colon :: r2 =>
                    if colon =c ":" then
                      match scan_once (skip_ws r2) with
                      | Scanned v r3 =>
                          let acc' := Dict.set acc key v in
                          match skip_ws r3 with
                          | c :: r4 =>
                              if c =c "}" then Scanned acc' r4
                              else if c =c ","
                              then JSONObject scan_once n' (skip_ws r4) acc'
                              else Invalid
                          | [] => Invalid
                          end
                      | Invalid => Invalid
                      | TooDeep => TooDeep
                      end
                    else Invalid
                | [] => Invalid
                end
            end
          else Invalid
      | [] => Invalid
      end
  end.

(** One JSON term at the head of [s]; [fuel] bounds the nesting depth. *)
Fixpoint scan_once (fuel : nat) (s : pystr) : scan value :=
  match fuel with
  | O => TooDeep
  | S fuel' =>
      match s with
      | [] => Invalid
      | c :: r =>
          if (c =? dquote)%N then
            match scanstring r [] with
            | Some (str, rest) => Scanned (VStr str) rest
            | None => Invalid
            end
          else if c =c "{" then
            match skip_ws r with
            | c' :: r' =>
                if c' =c "}" then Scanned (VDict []) r'
                else
                  match JSONObject (scan_once fuel') (S (List.length r)) (c' :: r') [] with
                  | Scanned d rest => Scanned (VDict d) rest
                  | Invalid => Invalid
                  | TooDeep => TooDeep
                  end
            | [] => Invalid
            end
          else if c =c "[" then
            match skip_ws r with
            | c' :: r' =>
                if c' =c "]" then Scanned (VList []) r'
                else
                  match JSONArray (scan_once fuel') (S (List.length r)) (c' :: r') [] with
                  | Scanned l rest => Scanned (VList l) rest
                  | Invalid => Invalid
                  | TooDeep => TooDeep
                  end
            | [] => Invalid
            end
          else if startswith (py "null") s then Scanned VNone (skipn 4 s)
          else if startswith (py "true") s then Scanned (VBool true) (skipn 4 s)
          else if startswith (py "false") s then Scanned (VBool false) (skipn 5 s)
          else if startswith (py "NaN") s then Scanned (VFloat nan) (skipn 3 s)
          else if startswith (py "Infinity") s
          then Scanned (VFloat infinity) (skipn 8 s)
          else if startswith (py "-Infinity") s
          then Scanned (VFloat neg_infinity) (skipn 9 s)
          else match_number s
      end
  end.

(** [json.loads(s)]: one term, white space allowed around it, nothing else.
    [None] stands for [JSONDecodeError] raised. *)
Definition loads (s : pystr) : option value :=
  if startswith [65279%N] s then None
  else
    let s' := skip_ws s in
    match scan_once (S (List.length s')) s' with
    | Scanned v rest =>
        match skip_ws rest with
        | [] => Some v
        | _ :: _ => None
        end
    | Invalid => None
    | TooDeep => None
    end.

(** ** Encoding, with the defaults of [json.dumps]: ASCII only, [", "]
    between items and [": "] after keys. *)

Definition hex_char (n : N) : char := if (n <? 10)%N then (48 + n)%N else (87 + n)%N.

(** [\uXXXX] for a code unit. *)
Definition u_escape (u : N) : pystr :=
  [chr "\"; chr "u"; hex_char (u / 4096 mod 16)%N; hex_char (u / 256 mod 16)%N;
   hex_char (u / 16 mod 16)%N; hex_char (u mod 16)%N].

Definition escape_char (c : char) : pystr :=
  if (c =? dquote)%N then [chr "\"; dquote]
  else if c =c "\" then [chr "\"; chr "\"]
  else if (c =? 10)%N then [chr "\"; chr "n"]
  else if (c =? 13)%N then [chr "\"; chr "r"]
  else if (c =? 9)%N then [chr "\"; chr "t"]
  else if (c =? 8)%N then [chr "\"; chr "b"]
  else if (c =? 12)%N then [chr "\"; chr "f"]
  else if (32 <=? c)%N && (c <=? 126)%N then [c]
  else if (c <? 65536)%N then u_escape c
  else u_escape (55296 + (c - 65536) / 1024)%N
         ++ u_escape (56320 + (c - 65536) mod 1024)%N.

Definition encode_string (s : pystr) : pystr :=
  dquote :: flat_map escape_char s ++ [dquote].

Definition floatstr (f : float) : pystr :=
  if PrimFloat.is_nan f then py "NaN"
  else if PrimFloat.eqb f infinity then py "Infinity"
  else if PrimFloat.eqb f neg_infinity then py "-Infinity"
  else PyFloat.repr f.

(** [json.dumps(v)] *)
Fixpoint dumps (v : value) : pystr :=
  match v with
  | VNone => py "null"
  | VBool true => py "true"
  | VBool false => py "false"
  | VInt n => PyStr.of_Z n
  | VFloat f => floatstr f
  | VStr s => encode_string s
  | VList l => chr "[" :: join (py ", ") (map dumps l) ++ [chr "]"]
  | VDict d =>
      chr "{" :: join (py ", ")
                   (map (fun '(k, x) => encode_string k ++ py ": " ++ dumps x) d)
        ++ [chr "}"]
  end.

End Json.

(* ================================================================== *)
(** * Effects: requests to the model and tool invocations *)
(* ================================================================== *)

(** A message of the conversation, [{"role": ..., "content": ...}]. *)
Record message : Type := Message { role : pystr; content : pystr }.

(** What a run does to the outside world, in order. *)
Inductive event : Type :=
| ModelRequest (model : pystr) (messages : list message)
| ToolInvocation (name : pystr) (kwargs : dict).

(** A computation with effects: the events it performs and how it ends. *)
Definition io (A : Type) : Type := (list event * outcome A)%type.

Definition io_ret {A : Type} (a : A) : io A := ([], Return a).

Definition io_lift {A : Type} (m : outcome A) : io A := ([], m).

Definition io_emit (ev : event) : io unit := ([ev], Return tt).

Definition io_bind {A B : Type} (m : io A) (k : A -> io B) : io B :=
  match m with
  | (t, Return a) => let '(t', r) := k a in (t ++ t', r)
  | (t, Raise e) => (t, Raise e)
  end.

(** [try: m except Exception as e: handler e] *)
Definition io_try {A : Type} (m : io A) (handler : exn -> io A) : io A :=
  match m with
  | (t, Return a) => (t, Return a)
  | (t, Raise e) => let '(t', r) := handler e in (t ++ t', r)
  end.

Notation "x <~ m ;; k" := (io_bind m (fun x => k))
  (at level 61, m at next level, right associativity) : py_scope.

(* ================================================================== *)
(** * Function objects and the [tool] decorator *)
(* ================================================================== *)

(** A function object made by [def]: its name, module and docstring ([None]
    without one), the attributes set on it, and what calling it with the
    items of a dict as keyword arguments gives. *)
Record pyfunc : Type := Func {
  __name__ : pystr;
  __module__ : pystr;
  __doc__ : value;
  __dict__ : dict;
  __call__ : dict -> outcome value
}.

(** [getattr(func, name, default)] for a name that is not a slot of functions. *)
Definition getattr (func : pyfunc) (name : pystr) (default : value) : value :=
  match Dict.lookup (__dict__ func) name with
  | Some v => v
  | None => default
  end.

(** [func.name], for such a name. *)
Definition getattr_strict (func : pyfunc) (name : pystr) : outcome value :=
  match Dict.lookup (__dict__ func) name with
  | Some v => Return v
  | None => Raise (AttributeError (py "'function' object has no attribute "
                                     ++ quoted name))
  end.

(** [func.name = v] *)
Definition setattr (func : pyfunc) (name : pystr) (v : value) : pyfunc :=
  {| __name__ := __name__ func;
     __module__ := __module__ func;
     __doc__ := __doc__ func;
     __dict__ := Dict.set (__dict__ func) name v;
     __call__ := __call__ func |}.

(** Tool decorator to register function as a tool. *)
Definition tool (func : pyfunc) : pyfunc :=
  setattr func (py "tool_definition")
    (VDict [ (py "name", VStr (__name__ func));
             (py "description", __doc__ func);
             (py "parameters", getattr func (py "parameters") (VDict []));
             (py "returns", getattr func (py "returns") (VDict [])) ]).

(** ** Binding keyword arguments to parameters *)

(** The first keyword that names no parameter. *)
Fixpoint unexpected_keyword (params : list pystr) (kwargs : dict) : option pystr :=
  match kwargs with
  | [] => None
  | (k, _) :: rest =>
      if existsb (PyStr.eqb k) params then unexpected_keyword params rest
      else Some k
  end.

(** ['a'], ['a' and 'b'], ['a', 'b', and 'c']. *)
Fixpoint name_list (names : list pystr) : pystr :=
  match names with
  | [] => []
  | [a] => quoted a
  | [a; b] => quoted a ++ py " and " ++ quoted b
  | a :: rest =>
      quoted a ++ py ", " ++
      match rest with
      | [b; c] => quoted b ++ py ", and " ++ quoted c
      | _ => name_list rest
      end
  end.

Definition missing_arguments (fname : pystr) (names : list pystr) : exn :=
  TypeError (fname ++ py "() missing " ++ PyStr.of_Z (Z.of_nat (List.length names))
               ++ py " required positional argument"
               ++ (match names with [_] => [] | _ => py "s" end)
               ++ py ": " ++ name_list names).

(** The keywords are checked against the parameter names first. *)
Definition check_keywords (fname : pystr) (params : list pystr) (kwargs : dict)
    : outcome unit :=
  match unexpected_keyword params kwargs with
  | Some k => Raise (TypeError (fname ++ py "() got an unexpected keyword argument "
                                  ++ quoted k))
  | None => Return tt
  end.

(* ================================================================== *)
(** * llm_tool_pattern_starter.py *)
(* ================================================================== *)

(** Parse tool calls from XML format: the tags are dropped and the rest is
    decoded as JSON; whatever the decoding raises is caught and gives [None]. *)
Definition parse_tool_call (tool_call_str : pystr) : value :=
  let clean_tags := Re.sub_tool_call tool_call_str in
  match Json.loads clean_tags with
  | Some v => v
  | None => VNone
  end.

Definition nl : pystr := [10%N].

(** [TOOL_SYSTEM_PROMPT.format(tools=tools)]: the text of the template, its
    doubled braces written once, with [tools] in the place of the field. *)
Definition TOOL_SYSTEM_PROMPT_format (tools : pystr) : pystr :=
  nl ++
  py "You are a function-calling AI model. You are provided with function signatures " ++ nl ++
  py "within <tools></tools> XML tags.  " ++ nl ++
  py "You may call one or more functions to assist with the user query. Don't make " ++ nl ++
  py "assumptions about what values to plug into functions. " ++ nl ++
  py "For each function call return a json object with function name and arguments " ++ nl ++
  py "within <tool_call></tool_call> XML tags as follows:" ++ nl ++
  nl ++
  py "<tool_call> " ++ nl ++
  py "{" ++ dquote :: py "name" ++ dquote :: py ": "
         ++ dquote :: py "<function-name>" ++ dquote :: py ", "
         ++ dquote :: py "arguments" ++ dquote :: py ": <args-dict>} " ++ nl ++
  py "</tool_call>" ++ nl ++
  nl ++
  py "Here are the available tools:" ++ nl ++
  nl ++
  py "<tools> " ++ nl ++
  tools ++ py " " ++ nl ++
  py "</tools>" ++ nl.

(** The chat completion service: [client.chat.completions.create(model=...,
    messages=...)] followed by [.choices[0].message.content], the text of the
    reply, or the error the request raises. *)
Definition Groq : Type := pystr -> list message -> outcome pystr.

Module ToolAgent.

Record t : Type := Agent {
  tools : list pyfunc;
  client : Groq;
  model : pystr
}.

(** [ToolAgent(tools)]; [groq] is the service the client built from the
    API key of the environment talks to. *)
Definition __init__ (groq : Groq) (tools : list pyfunc) : t :=
  {| tools := tools;
     client := groq;
     model := py "llama3-groq-70b-8192-tool-use-preview" |}.

(** A request to the model and the text of its reply. *)
Definition create (self : t) (messages : list message) : io pystr :=
  _ <~ io_emit (ModelRequest (model self) messages) ;;
  io_lift (client self (model self) messages).

(** The call of [tool] with the items of [arguments] as keyword arguments;
    [arguments] has to be a mapping. *)
Definition call (tool : pyfunc) (arguments : value) : io value :=
  match arguments with
  | VDict kwargs =>
      _ <~ io_emit (ToolInvocation (__name__ tool) kwargs) ;;
      io_lift (__call__ tool kwargs)
  | _ =>
      io_lift (Raise (TypeError
        (__module__ tool ++ py "." ++ __name__ tool
           ++ py "() argument after ** must be a mapping, not "
           ++ type_name arguments)))
  end.

(** Map LLM-provided argument names to match the tool's expected
    parameters (lines 87-89 of [run]). *)
Definition map_arguments (func_name arguments : value) : outcome value :=
  if py_eq func_name (VStr (py "add")) then
    x <- py_get arguments (py "num1") VNone ;;
    y <- py_get arguments (py "num2") VNone ;;
    Return (VDict [(py "x", x); (py "y", y)])
  else Return arguments.

(** The [try] statement of [run] (lines 93-104), for the tool whose name
    is [name]: the tool is called, its result is sent to the model and the
    answer of the model is returned; an exception raised on the way is
    returned as the JSON text of [{"error": str(e)}]. *)
Definition try_tool (self : t) (messages : list message) (assistant_reply : pystr)
    (name : pystr) (arguments : value) (tool : pyfunc) : io value :=
  io_try
    (result <~ call tool arguments ;;
     (* Send tool execution result back to the model to generate the
        final answer *)
     let messages :=
       messages ++
       [ Message (py "assistant") assistant_reply;
         Message (py "user")
           (py "The result of " ++ name ++ py " is: " ++ Json.dumps result) ] in
     final_response <~ create self messages ;;
     io_ret (VStr final_response))
    (fun e => io_ret (VStr (Json.dumps (VDict [(py "error", VStr (exn_str e))])))).

(** The loop [for tool in self.tools] of [run] (lines 91-104).  A [str]
    equals no value of another type, so a [tool.__name__] that equals
    [func_name] is the string [func_name] is.  Falling off the end of the
    loop is falling off the end of [run], which returns [None]. *)
Fixpoint for_tool (self : t) (messages : list message) (assistant_reply : pystr)
    (func_name arguments : value) (tools : list pyfunc) : io value :=
  match tools with
  | [] => io_ret VNone
  | tool :: rest =>
      match func_name with
      | VStr name =>
          if PyStr.eqb (__name__ tool) name
          then try_tool self messages assistant_reply name arguments tool
          else for_tool self messages assistant_reply func_name arguments rest
      | _ => for_tool self messages assistant_reply func_name arguments rest
      end
  end.

(** [run] from the point where the first reply of the model is in
    [assistant_reply] (lines 81-107). *)
Definition run_reply (self : t) (messages : list message) (assistant_reply : pystr)
    : io value :=
  (* Parse the assistant's response to check for any tool calls *)
  let tool_call := parse_tool_call assistant_reply in
  if truthy tool_call then
    func_name <~ io_lift (py_get tool_call (py "name") VNone) ;;
    arguments <~ io_lift (py_get tool_call (py "arguments") (VDict [])) ;;
    arguments <~ io_lift (map_arguments func_name arguments) ;;
    for_tool self messages assistant_reply func_name arguments (tools self)
  else
    (* If no tool call, return the assistant's reply directly *)
    io_ret (VStr assistant_reply).

(** The conversation [run] opens with (lines 62-70). *)
Definition first_messages (self : t) (user_msg : pystr) : outcome (list message) :=
  (* Prepare system prompt including tool definitions *)
  defs <- (fix dumps_all (l : list pyfunc) : outcome (list pystr) :=
             match l with
             | [] => Return []
             | tool :: rest =>
                 d <- getattr_strict tool (py "tool_definition") ;;
                 ds <- dumps_all rest ;;
                 Return (Json.dumps d :: ds)
             end) (tools self) ;;
  let tools_definitions := join nl defs in
  let system_prompt := TOOL_SYSTEM_PROMPT_format tools_definitions in
  Return [ Message (py "system") system_prompt; Message (py "user") user_msg ].

(** [ToolAgent.run(self, user_msg)] *)
Definition run (self : t) (user_msg : pystr) : io value :=
  messages <~ io_lift (first_messages self user_msg) ;;
  (* Send the message to the language model and get a response *)
  assistant_reply <~ create self messages ;;
  run_reply self messages assistant_reply.

End ToolAgent.

(** ** Tool implementations *)

(** [[article.get("score", 0) for article in articles if "score" in article]] *)
Fixpoint scores_of (articles : list value) : outcome (list value) :=
  match articles with
  | [] => Return []
  | article :: rest =>
      present <- py_in (py "score") article ;;
      if present then
        s <- py_get article (py "score") (VInt 0) ;;
        ss <- scores_of rest ;;
        Return (s :: ss)
      else scores_of rest
  end.

(** Process a list of articles with basic operations (count, average, max):
    the body of [process_data(data, operation)]. *)
Definition process_data (data operation : value) : outcome value :=
  if py_eq operation (VStr (py "count")) then
    n <- py_len data ;;
    Return (VDict [(py "count", VInt n)])
  else if py_eq operation (VStr (py "average")) then
    (* Calculate average score if 'score' is present in data *)
    articles <- py_iter data ;;
    scores <- scores_of articles ;;
    if truthy (VList scores) then
      total <- py_sum scores ;;
      avg <- py_truediv total (VInt (Z.of_nat (List.length scores))) ;;
      Return (VDict [(py "average_score", avg)])
    else Return (VDict [(py "average_score", VInt 0)])
  else if py_eq operation (VStr (py "max")) then
    (* Find article with max score *)
    articles <- py_iter data ;;
    max_article <- py_max articles (fun x => py_get x (py "score") (VInt 0)) VNone ;;
    Return (if truthy max_article
            then VDict [(py "max_score_article", max_article)]
            else VDict [])
  else Return (VDict [(py "error", VStr (py "Invalid operation"))]).

(** Add two numbers: the body of [add(x, y)]. *)
Definition add (x y : value) : outcome value := py_add x y.

Definition this_module : pystr := py "llm_tool_pattern_starter".

(** The function object the name [process_data] is bound to. *)
Definition process_data_fn : pyfunc :=
  tool {| __name__ := py "process_data";
          __module__ := this_module;
          __doc__ := VStr (nl ++
            py "    Process a list of articles with basic operations." ++ nl ++
            nl ++
            py "    Args:" ++ nl ++
            py "        data (List[Dict]): List of articles to process" ++ nl ++
            py "        operation (str): Operation to perform (count, average, max)" ++ nl ++
            nl ++
            py "    Returns:" ++ nl ++
            py "        Dict: Results of the operation" ++ nl ++
            py "    ");
          __dict__ := [];
          __call__ := fun kwargs =>
            _ <- check_keywords (py "process_data") [py "data"; py "operation"] kwargs ;;
            match Dict.lookup kwargs (py "data") with
            | None => Raise (missing_arguments (py "process_data") [py "data"])
            | Some data =>
                process_data data
                  (match Dict.lookup kwargs (py "operation") with
                   | Some operation => operation
                   | None => VStr (py "count")
                   end)
            end |}.

(** The function object the name [add] is bound to. *)
Definition add_fn : pyfunc :=
  tool {| __name__ := py "add";
          __module__ := this_module;
          __doc__ := VStr (py "Add two numbers.");
          __dict__ := [];
          __call__ := fun kwargs =>
            _ <- check_keywords (py "add") [py "x"; py "y"] kwargs ;;
            match Dict.lookup kwargs (py "x"), Dict.lookup kwargs (py "y") with
            | Some x, Some y => add x y
            | Some _, None => Raise (missing_arguments (py "add") [py "y"])
            | None, Some _ => Raise (missing_arguments (py "add") [py "x"])
            | None, None => Raise (missing_arguments (py "add") [py "x"; py "y"])
            end |}.

(* ================================================================== *)
(** * The tools that fetch from the network *)
(* ================================================================== *)

Definition KeyError (msg : pystr) : exn := Exn (py "KeyError") msg.
Definition IndexError (msg : pystr) : exn := Exn (py "IndexError") msg.

(** [try: m except Exception as e: handler e], without effects. *)
Definition try_except {A : Type} (m : outcome A) (handler : exn -> outcome A)
    : outcome A :=
  match m with
  | Return a => Return a
  | Raise e => handler e
  end.

Definition not_subscriptable (v : value) : exn :=
  TypeError (quoted (type_name v) ++ py " object is not subscriptable").

(** [v[key]] for a string [key].  [str(KeyError(key))] is [repr(key)], the
    key between single quotes for the keys of the program, which are plain
    words. *)
Definition py_getitem (v : value) (key : pystr) : outcome value :=
  match v with
  | VDict d =>
      match Dict.lookup d key with
      | Some x => Return x
      | None => Raise (KeyError (quoted key))
      end
  | VList _ => Raise (TypeError (py "list indices must be integers or slices, not str"))
  | VStr _ => Raise (TypeError (py "string indices must be integers, not 'str'"))
  | _ => Raise (not_subscriptable v)
  end.

(** [v[i]] for an [int] [i]; a negative index counts from the end.  A dict
    of string keys has no [int] key. *)
Definition py_getitem_index (v : value) (i : Z) : outcome value :=
  match v with
  | VList l =>
      let j := if i <? 0 then i + Z.of_nat (List.length l) else i in
      if j <? 0 then Raise (IndexError (py "list index out of range"))
      else match nth_error l (Z.to_nat j) with
           | Some x => Return x
           | None => Raise (IndexError (py "list index out of range"))
           end
  | VStr s =>
      let j := if i <? 0 then i + Z.of_nat (List.length s) else i in
      if j <? 0 then Raise (IndexError (py "string index out of range"))
      else match nth_error s (Z.to_nat j) with
           | Some c => Return (VStr [c])
           | None => Raise (IndexError (py "string index out of range"))
           end
  | VDict _ => Raise (KeyError (PyStr.of_Z i))
  | _ => Raise (not_subscriptable v)
  end.

(** The first [n] items of a sequence: all but the last [-n] for a negative
    [n]. *)
Definition take {A : Type} (n : Z) (l : list A) : list A :=
  if 0 <=? n then firstn (Z.to_nat n) l
  else firstn (Z.to_nat (Z.of_nat (List.length l) + n)) l.

(** The stop of a slice: [None], or an [int] ([bool] included). *)
Definition slice_stop (limit : value) : outcome (option Z) :=
  match limit with
  | VNone => Return None
  | VBool b => Return (Some (if b then 1 else 0))
  | VInt n => Return (Some n)
  | _ => Raise (TypeError
           (py "slice indices must be integers or None or have an __index__ method"))
  end.

(** [v[:limit]] *)
Definition py_slice_to (v limit : value) : outcome value :=
  match v with
  | VList l =>
      stop <- slice_stop limit ;;
      Return (VList (match stop with Some n => take n l | None => l end))
  | VStr s =>
      stop <- slice_stop limit ;;
      Return (VStr (match stop with Some n => take n s | None => s end))
  | VDict _ => Raise (TypeError (py "unhashable type: 'slice'"))
  | _ => Raise (not_subscriptable v)
  end.

(** What [requests.get(url)] returns: [raise_for_status()] returns or raises
    an [HTTPError], [json()] gives the decoded body or raises. *)
Record Response : Type := {
  raise_for_status : outcome unit;
  json : outcome value
}.

(** The network: what [requests.get(url)] gives, a response or the error the
    request raises. *)
Definition Requests : Type := pystr -> outcome Response.

(** The address [search_hackernews] asks, for a [query] that is a [str]. *)
Definition hackernews_url (query : pystr) : pystr :=
  py "http://hn.algolia.com/api/v1/search?query=" ++ query
    ++ py "&numericFilters=points>10".

(** [[{'title': item['title'], 'url': item['url'], 'score': item['points']}
      for item in results if item.get('url')]] *)
Fixpoint hits_with_url (results : list value) : outcome (list value) :=
  match results with
  | [] => Return []
  | item :: rest =>
      url <- py_get item (py "url") VNone ;;
      if truthy url then
        title <- py_getitem item (py "title") ;;
        url' <- py_getitem item (py "url") ;;
        points <- py_getitem item (py "points") ;;
        others <- hits_with_url rest ;;
        Return (VDict [(py "title", title); (py "url", url'); (py "score", points)]
                  :: others)
      else hits_with_url rest
  end.

(** Search HackerNews articles by keyword: the body of
    [search_hackernews(query, limit)] for a [query] that is a [str]. *)
Definition search_hackernews (requests_get : Requests) (query : pystr)
    (limit : value) : outcome value :=
  let url := hackernews_url query in
  try_except
    (response <- requests_get url ;;
     _ <- raise_for_status response ;;
     body <- json response ;;
     hits <- py_getitem body (py "hits") ;;
     results <- py_slice_to hits limit ;;
     items <- py_iter results ;;
     found <- hits_with_url items ;;
     Return (VList found))
    (fun e => Return (VList [VDict [(py "error",
                 VStr (py "Failed to fetch articles: " ++ exn_str e))]])).

(** [f"{api_key}"] for what [os.getenv] gives: the value, or [None]. *)
Definition format_getenv (api_key : option pystr) : pystr :=
  match api_key with
  | Some k => k
  | None => py "None"
  end.

(** The address [fetch_weather] asks. *)
Definition weather_url (city units : pystr) (api_key : option pystr) : pystr :=
  py "http://api.openweathermap.org/data/2.5/weather?q=" ++ city
    ++ py "&units=" ++ units ++ py "&appid=" ++ format_getenv api_key.

(** Fetch the current weather for a specified city: the body of
    [fetch_weather(city, units)] for strings [city] and [units]; [getenv] is
    the environment of the process. *)
Definition fetch_weather (getenv : pystr -> option pystr) (requests_get : Requests)
    (city units : pystr) : outcome value :=
  let api_key := getenv (py "WEATHER_API_KEY") in
  let url := weather_url city units api_key in
  try_except
    (response <- requests_get url ;;
     _ <- raise_for_status response ;;
     data <- json response ;;
     name <- py_get data (py "name") VNone ;;
     main <- py_getitem data (py "main") ;;
     temp <- py_get main (py "temp") VNone ;;
     weather <- py_getitem data (py "weather") ;;
     first <- py_getitem_index weather 0 ;;
     description <- py_get first (py "description") VNone ;;
     main' <- py_getitem data (py "main") ;;
     humidity <- py_get main' (py "humidity") VNone ;;
     wind <- py_getitem data (py "wind") ;;
     speed <- py_get wind (py "speed") VNone ;;
     Return (VDict [ (py "city", name);
                     (py "temperature", temp);
                     (py "weather", description);
                     (py "humidity", humidity);
                     (py "wind_speed", speed) ]))
    (fun e => Return (VDict [(py "error",
                 VStr (py "Failed to fetch weather data: " ++ exn_str e))])).

(* ================================================================== *)
(** * What [tool] can be handed: any callable *)
(* ================================================================== *)

(** [tool] is applied to whatever stands under [@tool].  A callable need not
    be a function made by [def].  It may have no [__name__] (a
    [functools.partial]); it may take no attributes (a built-in such as [len],
    a bound method); and what it returns may depend on the attributes it
    carries when it is called (a function that looks itself up by its name and
    reads them). *)
Module Callable.

(** A callable: the name of its type as the interpreter's messages print it,
    its [__name__] if it has one, its docstring, the attributes set on it
    ([None] if it takes none), and what calling it gives, from the attributes
    it has at the time of the call and the keyword arguments. *)
Record t : Type := Make {
  tp_name : pystr;
  __name__ : option pystr;
  __doc__ : value;
  __dict__ : option dict;
  __call__ : dict -> dict -> outcome value
}.

(** [getattr(func, name, default)] for a name that is not a slot of the type. *)
Definition getattr (func : t) (name : pystr) (default : value) : value :=
  match __dict__ func with
  | Some attrs =>
      match Dict.lookup attrs name with
      | Some v => v
      | None => default
      end
  | None => default
  end.

Definition no_attribute (func : t) (name : pystr) : exn :=
  AttributeError (quoted (tp_name func) ++ py " object has no attribute "
                    ++ quoted name).

(** [func.__name__] *)
Definition get_name (func : t) : outcome pystr :=
  match __name__ func with
  | Some name => Return name
  | None => Raise (no_attribute func (py "__name__"))
  end.

(** [func.name = v], for such a name. *)
Definition setattr (func : t) (name : pystr) (v : value) : outcome t :=
  match __dict__ func with
  | Some attrs =>
      Return {| tp_name := tp_name func;
                __name__ := __name__ func;
                __doc__ := __doc__ func;
                __dict__ := Some (Dict.set attrs name v);
                __call__ := __call__ func |}
  | None => Raise (no_attribute func name)
  end.

(** Tool decorator to register function as a tool.  The dict on the right of
    the assignment is built first, [func.__name__] before anything else; then
    the attribute is set, and [func] itself is returned. *)
Definition tool (func : t) : outcome t :=
  name <- get_name func ;;
  setattr func (py "tool_definition")
    (VDict [ (py "name", VStr name);
             (py "description", __doc__ func);
             (py "parameters", getattr func (py "parameters") (VDict []));
             (py "returns", getattr func (py "returns") (VDict [])) ]).

(** Calling [func] with the items of [kwargs] as keyword arguments. *)
Definition call (func : t) (kwargs : dict) : outcome value :=
  __call__ func (match __dict__ func with Some attrs => attrs | None => [] end)
    kwargs.

(** [func.tool_definition], if it has one. *)
Definition tool_definition (func : t) : option value :=
  match __dict__ func with
  | Some attrs => Dict.lookup attrs (py "tool_definition")
  | None => None
  end.

End Callable.

(** A function object of the agent, as a callable: it has a name, it takes
    attributes, and its code does not read them. *)
Definition callable_of (func : pyfunc) : Callable.t :=
  {| Callable.tp_name := py "function";
     Callable.__name__ := Some (__name__ func);
     Callable.__doc__ := __doc__ func;
     Callable.__dict__ := Some (__dict__ func);
     Callable.__call__ := fun _ kwargs => __call__ func kwargs |}.

(* ================================================================== *)
(** * Vocabulary of the properties, and the inputs of the scenarios *)
(* ================================================================== *)

(** [d.get(key, default)] on the items of a dict. *)
Definition dict_get (d : dict) (key : pystr) (default : value) : value :=
  match Dict.lookup d key with
  | Some v => v
  | None => default
  end.

(** The tool the loop of [run] stops at for a name: the first of that name
    in the registry. *)
Definition named (name : pystr) (tools : list pyfunc) : option pyfunc :=
  find (fun tool => PyStr.eqb (__name__ tool) name) tools.

(** The tool invocations among the events of a run. *)
Definition invocations (trace : list event) : list event :=
  filter (fun ev => match ev with ToolInvocation _ _ => true | _ => false end) trace.

(** A scanner that does not run out of fuel and takes at least one
    character of any input shorter than [bound]. *)
Definition progresses (scan_term : pystr -> Json.scan value) (bound : nat) : Prop :=
  forall s, (List.length s < bound)%nat ->
    scan_term s <> Json.TooDeep /\
    forall v rest, scan_term s = Json.Scanned v rest ->
                   (List.length rest < List.length s)%nat.

(** A call written without the tags. *)
Definition untagged_call : pystr :=
  pyq "{`name`: `add`, `arguments`: {`num1`: 5, `num2`: 3}}".

(** The reply of scenario A. *)
Definition add_5_3_reply : pystr :=
  pyq "<tool_call>{`name`:`add`,`arguments`:{`num1`:5,`num2`:3}}</tool_call>".

(** A reply that calls a tool the registry does not have. *)
Definition multiply_reply : pystr :=
  pyq "<tool_call>{`name`: `multiply`, `arguments`: {`a`: 5, `b`: 3}}</tool_call>".

(** A reply that holds a list of calls. *)
Definition two_calls_reply : pystr :=
  pyq "<tool_call>[{`name`: `add`, `arguments`: {`num1`: 5, `num2`: 3}}, {`name`: `add`, `arguments`: {`num1`: 1, `num2`: 2}}]</tool_call>".

(** A reply that calls [add] without arguments. *)
Definition add_nothing_reply : pystr :=
  pyq "<tool_call>{`name`: `add`}</tool_call>".

(** A reply that calls [process_data]. *)
Definition count_reply : pystr :=
  pyq "<tool_call>{`name`: `process_data`, `arguments`: {`data`: [{`score`: 10}], `operation`: `count`}}</tool_call>".

(** A model that answers every request with the same sentence. *)
Definition canned_model : Groq := fun _ _ => Return (py "The answer is 8.").

(** A model that answers the opening conversation (system prompt and user
    message) with [first] and any longer one with a sentence. *)
Definition scripted_model (first : pystr) : Groq :=
  fun _ messages =>
    if (List.length messages <=? 2)%nat then Return first
    else Return (py "The answer is 8.").

(** An agent with the registry of scenario A, and one with two tools. *)
Definition add_agent : ToolAgent.t := ToolAgent.__init__ canned_model [add_fn].
Definition two_tool_agent : ToolAgent.t :=
  ToolAgent.__init__ canned_model [add_fn; process_data_fn].

(** An article is a dict; this one has no score. *)
Definition lacks_score (article : value) : bool :=
  match article with
  | VDict d => negb (Dict.mem d (py "score"))
  | _ => false
  end.

(** The data of scenario B. *)
Definition three_scores : value :=
  VList [ VDict [(py "score", VInt 10)];
          VDict [(py "score", VInt 20)];
          VDict [(py "score", VInt 30)] ].

(** ** Vocabulary and inputs of the further properties *)

(** The definition the decorator derives from a function. *)
Definition tool_definition_of (func : pyfunc) : value :=
  VDict [ (py "name", VStr (__name__ func));
          (py "description", __doc__ func);
          (py "parameters", getattr func (py "parameters") (VDict []));
          (py "returns", getattr func (py "returns") (VDict [])) ].

(** A function object that carries a [tool_definition]. *)
Definition decorated (func : pyfunc) : bool :=
  Dict.mem (__dict__ func) (py "tool_definition").


(** A reply that asks [process_data] for an operation it does not have. *)
Definition median_reply : pystr :=
  pyq "<tool_call>{`name`: `process_data`, `arguments`: {`data`: [{`score`: 10}], `operation`: `median`}}</tool_call>".

(** A reply that calls [add] with the names of its parameters. *)
Definition add_x_y_reply : pystr :=
  pyq "<tool_call>{`name`: `add`, `arguments`: {`x`: 5, `y`: 3}}</tool_call>".

(** A reply that calls [add] on a number beyond 64 bits. *)
Definition big_add_reply : pystr :=
  pyq "<tool_call>{`name`: `add`, `arguments`: {`num1`: 18446744073709551616, `num2`: 1}}</tool_call>".

(** A function that was not decorated. *)
Definition noop : pyfunc :=
  {| __name__ := py "noop"; __module__ := this_module; __doc__ := VNone;
     __dict__ := []; __call__ := fun _ => Return VNone |}.

(** An article that has a score. *)
Definition has_score (article : value) : bool :=
  match article with
  | VDict d => Dict.mem d (py "score")
  | _ => false
  end.

(** An article is a dict whose score, if it has one, is an [int]. *)
Definition integer_scored (article : value) : bool :=
  match article with
  | VDict d =>
      match Dict.lookup d (py "score") with
      | None | Some (VInt _) => true
      | Some _ => false
      end
  | _ => false
  end.

(** The score of such an article, [0] when it has none. *)
Definition int_score_of (article : value) : Z :=
  match article with
  | VDict d =>
      match Dict.lookup d (py "score") with
      | Some (VInt n) => n
      | _ => 0
      end
  | _ => 0
  end.

Definition sum_Z (ns : list Z) : Z := fold_right Z.add 0 ns.

(** Data that has neither a length nor items. *)
Definition scalar (data : value) : bool :=
  match data with
  | VNone | VBool _ | VInt _ | VFloat _ => true
  | _ => false
  end.

(** A hit that passes the filter of [search_hackernews]: a dict with a
    truthy [url]. *)
Definition has_url (item : value) : bool :=
  match item with
  | VDict h => truthy (dict_get h (py "url") VNone)
  | _ => false
  end.

(** A hit [search_hackernews] can handle: a dict which, if it passes the
    filter, has a title and points. *)
Definition complete_hit (item : value) : bool :=
  match item with
  | VDict h =>
      negb (truthy (dict_get h (py "url") VNone))
      || (Dict.mem h (py "title") && Dict.mem h (py "points"))
  | _ => false
  end.

(** The article made of a hit. *)
Definition story_of (item : value) : value :=
  match item with
  | VDict h =>
      VDict [ (py "title", dict_get h (py "title") VNone);
              (py "url", dict_get h (py "url") VNone);
              (py "score", dict_get h (py "points") VNone) ]
  | _ => VNone
  end.

(** An article as [search_hackernews] returns them. *)
Definition is_story (v : value) : Prop :=
  exists title url points,
    v = VDict [(py "title", title); (py "url", url); (py "score", points)]
    /\ truthy url = true.

(** The item [search_hackernews] returns in the place of articles. *)
Definition search_error (e : exn) : value :=
  VList [VDict [(py "error", VStr (py "Failed to fetch articles: " ++ exn_str e))]].

(** The dict [fetch_weather] returns in the place of a report. *)
Definition weather_error (e : exn) : value :=
  VDict [(py "error", VStr (py "Failed to fetch weather data: " ++ exn_str e))].

(** A network that is down, one that answers every request with the same
    JSON body, and one that answers with an error status. *)
Definition unreachable : Requests :=
  fun _ => Raise (Exn (py "ConnectionError") (py "Max retries exceeded")).
Definition serving (body : value) : Requests :=
  fun _ => Return {| raise_for_status := Return tt; json := Return body |}.
Definition refusing : Requests :=
  fun url => Return {| raise_for_status :=
                         Raise (Exn (py "HTTPError")
                                  (py "404 Client Error: Not Found for url: " ++ url));
                       json := Return VNone |}.

(** Three hits: one complete, one without an address, one complete. *)
Definition sample_hits : list value :=
  [ VDict [ (py "title", VStr (py "Claude")); (py "url", VStr (py "https://a.example"));
            (py "points", VInt 120) ];
    VDict [ (py "title", VStr (py "Ask HN")); (py "url", VNone); (py "points", VInt 50) ];
    VDict [ (py "title", VStr (py "Rocq")); (py "url", VStr (py "https://b.example"));
            (py "points", VInt 80) ] ].

(** A weather report of the service, without humidity. *)
Definition sample_weather : dict :=
  [ (py "name", VStr (py "Arlington"));
    (py "main", VDict [(py "temp", VInt 21)]);
    (py "weather", VList [VDict [(py "description", VStr (py "clear sky"))]]);
    (py "wind", VDict [(py "speed", VInt 3)]) ].

(** A text of Unicode scalar values: code points below [0x110000] that are
    not surrogates. *)
Definition scalar_text (s : pystr) : bool :=
  forallb (fun c => (c <? 1114112)%N && negb ((55296 <=? c)%N && (c <=? 57343)%N)) s.

(** What [json.dumps] accepts of a [value] under the limits the interpreter
    starts with.  An [int] of more than 4300 digits is not written in decimal
    ([ValueError]); nesting is bounded by the recursion limit (1000 frames,
    [RecursionError]), of which a hundred levels stay well clear. *)
Definition int_max_str_digits : Z := 4300.

Fixpoint ints_within_limit (v : value) : bool :=
  match v with
  | VInt n => Z.abs n <? 10 ^ int_max_str_digits
  | VList l => forallb ints_within_limit l
  | VDict d => forallb (fun '(_, x) => ints_within_limit x) d
  | _ => true
  end.

Fixpoint nesting (v : value) : nat :=
  match v with
  | VList l => S (fold_right (fun x deepest => Nat.max (nesting x) deepest) 0%nat l)
  | VDict d =>
      S (fold_right (fun '(_, x) deepest => Nat.max (nesting x) deepest) 0%nat d)
  | _ => 0%nat
  end.

Definition json_serializable (v : value) : bool :=
  ints_within_limit v && (nesting v <=? 100)%nat.

(** [add] as [def] makes it, before the decorator is applied. *)
Definition add_def : pyfunc :=
  {| __name__ := py "add"; __module__ := this_module;
     __doc__ := VStr (py "Add two numbers."); __dict__ := [];
     __call__ := __call__ add_fn |}.

(** The built-in [len], called with keyword arguments only. *)
Definition builtin_len : Callable.t :=
  {| Callable.tp_name := py "builtin_function_or_method";
     Callable.__name__ := Some (py "len");
     Callable.__doc__ := VStr (py "Return the number of items in a container.");
     Callable.__dict__ := None;
     Callable.__call__ := fun _ kwargs =>
       match kwargs with
       | [] => Raise (TypeError (py "len() takes exactly one argument (0 given)"))
       | _ => Raise (TypeError (py "len() takes no keyword arguments"))
       end |}.

(** [functools.partial(process_data, operation='count')]: the keywords of the
    call are added to, or replace, the one that was fixed. *)
Definition count_partial : Callable.t :=
  {| Callable.tp_name := py "functools.partial";
     Callable.__name__ := None;
     Callable.__doc__ :=
       VStr (py "partial(func, *args, **keywords) - new function with partial application"
               ++ nl ++ py "    of the given arguments and keywords." ++ nl);
     Callable.__dict__ := Some [];
     Callable.__call__ := fun _ kwargs =>
       __call__ process_data_fn
         (fold_left (fun keywords '(k, v) => Dict.set keywords k v) kwargs
            [(py "operation", VStr (py "count"))]) |}.

(** A function that tells whether it has been registered:
    [def is_tool(): return hasattr(is_tool, 'tool_definition')]. *)
Definition is_tool : Callable.t :=
  {| Callable.tp_name := py "function";
     Callable.__name__ := Some (py "is_tool");
     Callable.__doc__ := VNone;
     Callable.__dict__ := Some [];
     Callable.__call__ := fun attrs kwargs =>
       _ <- check_keywords (py "is_tool") [] kwargs ;;
       Return (VBool (Dict.mem attrs (py "tool_definition"))) |}.

(* ================================================================== *)
(** * Properties *)
(* ================================================================== *)

(** ** Strings and dicts *)

Lemma pystr_eqb_refl (s : pystr) : PyStr.eqb s s = true.
Proof.
  induction s as [|c s IH]; simpl; [reflexivity|].
  rewrite N.eqb_refl. exact IH.
Qed.

Lemma pystr_eqb_eq (s u : pystr) : PyStr.eqb s u = true <-> s = u.
Proof.
  split.
  - revert u. induction s as [|c s IH]; intros [|d u] H; simpl in H;
      try discriminate; [reflexivity|].
    apply andb_true_iff in H. destruct H as [Hc Hs].
    apply N.eqb_eq in Hc. apply IH in Hs. congruence.
  - intros <-. apply pystr_eqb_refl.
Qed.

Lemma pystr_eqb_neq (s u : pystr) : PyStr.eqb s u = false <-> s <> u.
Proof.
  split.
  - intros H E. apply pystr_eqb_eq in E. congruence.
  - intros H. destruct (PyStr.eqb s u) eqn:E; [|reflexivity].
    apply pystr_eqb_eq in E. contradiction.
Qed.

Section DictFacts.
Variable A : Type.
Implicit Types (d : list (pystr * A)) (k : pystr) (v : A).

(** Reading another key is not changed by a write. *)
Lemma lookup_set_other d k k' v :
  k <> k' -> Dict.lookup (Dict.set d k v) k' = Dict.lookup d k'.
Proof.
  intros Hk. induction d as [|[k0 w] d IH]; simpl.
  - apply pystr_eqb_neq in Hk. rewrite Hk. reflexivity.
  - destruct (PyStr.eqb k0 k) eqn:E0; simpl.
    + apply pystr_eqb_eq in E0. subst k0.
      apply pystr_eqb_neq in Hk. rewrite Hk. reflexivity.
    + destruct (PyStr.eqb k0 k'); [reflexivity | exact IH].
Qed.

(** A write is read back. *)
Lemma lookup_set_same d k v : Dict.lookup (Dict.set d k v) k = Some v.
Proof.
  induction d as [|[k0 w] d IH]; simpl.
  - rewrite pystr_eqb_refl. reflexivity.
  - destruct (PyStr.eqb k0 k) eqn:E0; simpl; rewrite E0; [reflexivity | exact IH].
Qed.

(** The second of two writes to a key is the one that stays. *)
Lemma set_set d k v w : Dict.set (Dict.set d k v) k w = Dict.set d k w.
Proof.
  induction d as [|[k0 x] d IH]; simpl.
  - rewrite pystr_eqb_refl. reflexivity.
  - destruct (PyStr.eqb k0 k) eqn:E0; simpl; rewrite E0; [reflexivity|].
    f_equal. exact IH.
Qed.
End DictFacts.

(** ** The JSON decoder always has fuel enough

    The fuel of [Json.scan_once] bounds the nesting depth and that of the
    loops the number of items; both are set from the length of the input.
    Every term read takes at least one character, so neither runs out:
    [Json.loads] fails on syntax errors only. *)

Section JsonFuel.
Import Json.

Lemma skip_ws_length (s : pystr) : (List.length (skip_ws s) <= List.length s)%nat.
Proof.
  induction s as [|c s IH]; cbn [skip_ws]; [lia|].
  destruct (is_ws c); cbn [List.length]; lia.
Qed.

Lemma span_digits_length (s ds rest : pystr) :
  span_digits s = (ds, rest) -> (List.length rest <= List.length s)%nat.
Proof.
  revert ds rest. induction s as [|c s IH]; intros ds rest H; cbn [span_digits] in H.
  - inversion H. cbn. lia.
  - destruct (is_digit c).
    + destruct (span_digits s) as [ds' rest'] eqn:E. inversion H; subst.
      specialize (IH _ _ eq_refl). cbn [List.length]. lia.
    + inversion H; subst. lia.
Qed.

Lemma scan_exponent_length (s rest : pystr) (x : Z) :
  scan_exponent s = Some (x, rest) -> (List.length rest < List.length s)%nat.
Proof.
  unfold scan_exponent. destruct s as [|e r]; [discriminate|].
  destruct ((e =c "e") || (e =c "E")); [|discriminate].
  set (sr := match r with
             | [] => (false, r)
             | sg :: r' => if sg =c "-" then (true, r')
                           else if sg =c "+" then (false, r') else (false, r)
             end).
  assert (Hsr : (List.length (snd sr) <= List.length r)%nat).
  { subst sr. destruct r as [|sg r']; cbn [snd List.length]; [lia|].
    destruct (sg =c "-"); [cbn; lia|]. destruct (sg =c "+"); cbn; lia. }
  destruct sr as [neg r1]. cbn [snd] in Hsr.
  destruct (span_digits r1) as [ds rest'] eqn:E.
  apply span_digits_length in E.
  destruct ds; [discriminate|]. intros H. inversion H; subst.
  cbn [List.length]. lia.
Qed.

Lemma match_number_progress (s : pystr) :
  match_number s <> TooDeep /\
  forall v rest, match_number s = Scanned v rest ->
                 (List.length rest < List.length s)%nat.
Proof.
  unfold match_number.
  set (ns := match s with
             | [] => (false, s)
             | c :: r => if c =c "-" then (true, r) else (false, s)
             end).
  assert (Hns : (List.length (snd ns) <= List.length s)%nat).
  { subst ns. destruct s as [|c r]; cbn [snd]; [lia|].
    destruct (c =c "-"); cbn [snd List.length]; lia. }
  destruct ns as [neg s1]. cbn [snd] in Hns.
  destruct s1 as [|c r]; [split; [discriminate|intros; discriminate]|].
  destruct (is_digit c); [|split; [discriminate|intros; discriminate]].
  set (ip := if c =c "0" then ([c], r)
             else let '(ds, rest) := span_digits r in (c :: ds, rest)).
  assert (Hip : (List.length (snd ip) <= List.length r)%nat).
  { subst ip. destruct (c =c "0"); cbn [snd]; [lia|].
    destruct (span_digits r) as [ds rest] eqn:E. cbn [snd].
    exact (span_digits_length _ E). }
  destruct ip as [ids s2]. cbn [snd] in Hip.
  set (fp := match s2 with
             | dot :: d :: r' =>
                 if (dot =c ".") && is_digit d then span_digits (d :: r')
                 else ([], s2)
             | _ => ([], s2)
             end).
  assert (Hfp : (List.length (snd fp) <= List.length s2)%nat).
  { subst fp. destruct s2 as [|dot [|d r']]; cbn [snd]; try lia.
    destruct ((dot =c ".") && is_digit d); cbn [snd]; [|lia].
    destruct (span_digits (d :: r')) as [ds rest] eqn:E. cbn [snd].
    apply span_digits_length in E. cbn [List.length] in *. lia. }
  destruct fp as [fds s3]. cbn [snd] in Hfp.
  cbn [List.length] in Hns.
  destruct (scan_exponent s3) as [[x s4]|] eqn:Ex.
  - apply scan_exponent_length in Ex.
    destruct fds; (split; [discriminate|]); intros v rest H; inversion H; subst; lia.
  - destruct fds; (split; [discriminate|]); intros v rest H; inversion H; subst; lia.
Qed.

Lemma scanstring_progress (n : nat) :
  forall s acc str rest,
    (List.length s <= n)%nat ->
    scanstring s acc = Some (str, rest) ->
    (List.length rest < List.length s)%nat.
Proof.
  induction n as [|n IH]; intros s acc str rest Hn H.
  - destruct s; [discriminate|]. cbn [List.length] in Hn. lia.
  - destruct s as [|c r]; [discriminate|]. cbn [scanstring] in H.
    cbn [List.length] in Hn |- *.
    repeat match type of H with
           | Some _ = Some _ => inversion H; subst; clear H
           | None = Some _ => discriminate H
           | scanstring ?r' _ = Some _ =>
               apply IH in H; [|cbn [List.length] in *; lia]
           | context [match ?x with _ => _ end] => destruct x eqn:?
           end; cbn [List.length] in *; try lia.
Qed.

Lemma JSONArray_progress (scan_term : pystr -> scan value) (bound : nat) :
  progresses scan_term bound ->
  forall n s acc,
    (List.length s < n)%nat -> (List.length s < bound)%nat ->
    JSONArray scan_term n s acc <> TooDeep /\
    forall l rest, JSONArray scan_term n s acc = Scanned l rest ->
                   (List.length rest < List.length s)%nat.
Proof.
  intros Hscan. induction n as [|n IH]; intros s acc Hn Hb; [lia|].
  cbn [JSONArray]. destruct (Hscan s Hb) as [Hdeep Hlen].
  destruct (scan_term s) as [v r| |]; [|split; [discriminate|intros; discriminate]|contradiction].
  specialize (Hlen v r eq_refl).
  pose proof (skip_ws_length r) as Hws.
  destruct (skip_ws r) as [|c r']; [split; [discriminate|intros; discriminate]|].
  cbn [List.length] in Hws.
  destruct (c =c "]").
  { split; [discriminate|]. intros l rest H. inversion H; subst. lia. }
  destruct (c =c ","); [|split; [discriminate|intros; discriminate]].
  pose proof (skip_ws_length r') as Hws'.
  destruct (IH (skip_ws r') (v :: acc)) as [Hd Hl]; [lia|lia|].
  split; [exact Hd|]. intros l rest H. specialize (Hl l rest H). lia.
Qed.

Lemma JSONObject_progress (scan_term : pystr -> scan value) (bound : nat) :
  progresses scan_term bound ->
  forall n s acc,
    (List.length s < n)%nat -> (List.length s < bound)%nat ->
    JSONObject scan_term n s acc <> TooDeep /\
    forall d rest, JSONObject scan_term n s acc = Scanned d rest ->
                   (List.length rest < List.length s)%nat.
Proof.
  intros Hscan. induction n as [|n IH]; intros s acc Hn Hb; [lia|].
  cbn [JSONObject].
  destruct s as [|q r]; [split; [discriminate|intros; discriminate]|].
  cbn [List.length] in Hn, Hb |- *.
  destruct (q =? dquote)%N; [|split; [discriminate|intros; discriminate]].
  destruct (scanstring r []) as [[key r1]|] eqn:Ekey;
    [|split; [discriminate|intros; discriminate]].
  apply (scanstring_progress (n := List.length r)) in Ekey; [|lia].
  pose proof (skip_ws_length r1) as Hws1.
  destruct (skip_ws r1) as [|colon r2]; [split; [discriminate|intros; discriminate]|].
  cbn [List.length] in Hws1.
  destruct (colon =c ":"); [|split; [discriminate|intros; discriminate]].
  pose proof (skip_ws_length r2) as Hws2.
  destruct (Hscan (skip_ws r2)) as [Hdeep Hlen]; [lia|].
  destruct (scan_term (skip_ws r2)) as [v r3| |];
    [|split; [discriminate|intros; discriminate]|contradiction].
  specialize (Hlen v r3 eq_refl).
  pose proof (skip_ws_length r3) as Hws3.
  destruct (skip_ws r3) as [|c r4]; [split; [discriminate|intros; discriminate]|].
  cbn [List.length] in Hws3.
  destruct (c =c "}").
  { split; [discriminate|]. intros d rest H. inversion H; subst. lia. }
  destruct (c =c ","); [|split; [discriminate|intros; discriminate]].
  pose proof (skip_ws_length r4) as Hws4.
  destruct (IH (skip_ws r4) (Dict.set acc key v)) as [Hd Hl]; [lia|lia|].
  split; [exact Hd|]. intros d rest H. specialize (Hl d rest H). lia.
Qed.

Lemma skipn_progress (k : nat) (s : pystr) :
  (0 < k)%nat -> s <> [] -> (List.length (skipn k s) < List.length s)%nat.
Proof.
  intros Hk Hs. rewrite length_skipn. destruct s; [contradiction|].
  cbn [List.length]. lia.
Qed.

Lemma constant_progress (v0 : value) (k : nat) (s : pystr) :
  (0 < k)%nat -> s <> [] ->
  Scanned v0 (skipn k s) <> TooDeep /\
  forall v rest, Scanned v0 (skipn k s) = Scanned v rest ->
                 (List.length rest < List.length s)%nat.
Proof.
  intros Hk Hs. split; [discriminate|]. intros v rest H.
  injection H as _ <-. apply skipn_progress; assumption.
Qed.

Lemma scan_once_progress (fuel : nat) : progresses (scan_once fuel) fuel.
Proof.
  induction fuel as [|fuel IH]; intros s Hs; [lia|].
  cbn [scan_once]. destruct s as [|c r]; [split; [discriminate|intros; discriminate]|].
  cbn [List.length] in Hs.
  destruct (c =? dquote)%N.
  { destruct (scanstring r []) as [[str rest]|] eqn:E;
      [|split; [discriminate|intros; discriminate]].
    apply (scanstring_progress (n := List.length r)) in E; [|lia].
    split; [discriminate|]. intros v rest' H. inversion H; subst.
    cbn [List.length]. lia. }
  destruct (c =c "{").
  { pose proof (skip_ws_length r) as Hws.
    destruct (skip_ws r) as [|c' r']; [split; [discriminate|intros; discriminate]|].
    destruct (c' =c "}").
    { split; [discriminate|]. intros v rest H. inversion H; subst.
      cbn [List.length] in *. lia. }
    destruct (JSONObject_progress IH (n := S (List.length r)) (c' :: r') [])
      as [Hd Hl]; [lia|lia|].
    destruct (JSONObject _ _ _ _) as [d rest| |];
      [|split; [discriminate|intros; discriminate]|contradiction].
    split; [discriminate|]. intros v rest' H. inversion H; subst.
    specialize (Hl d rest' eq_refl). cbn [List.length]. lia. }
  destruct (c =c "[").
  { pose proof (skip_ws_length r) as Hws.
    destruct (skip_ws r) as [|c' r']; [split; [discriminate|intros; discriminate]|].
    destruct (c' =c "]").
    { split; [discriminate|]. intros v rest H. inversion H; subst.
      cbn [List.length] in *. lia. }
    destruct (JSONArray_progress IH (n := S (List.length r)) (c' :: r') [])
      as [Hd Hl]; [lia|lia|].
    destruct (JSONArray _ _ _ _) as [l rest| |];
      [|split; [discriminate|intros; discriminate]|contradiction].
    split; [discriminate|]. intros v rest' H. inversion H; subst.
    specialize (Hl l rest' eq_refl). cbn [List.length]. lia. }
  repeat match goal with
         | |- context [startswith ?p (c :: r)] =>
             destruct (startswith p (c :: r));
             [apply constant_progress; [lia|discriminate]|]
         end.
  apply match_number_progress.
Qed.

(** [Json.loads] never gives up for want of fuel. *)
Theorem loads_fuel_suffices (s : pystr) :
  scan_once (S (List.length (skip_ws s))) (skip_ws s) <> TooDeep.
Proof.
  apply (scan_once_progress (fuel := S (List.length (skip_ws s)))). lia.
Qed.

End JsonFuel.

(** ** The decorator *)

Lemma getattr_tool_other (func : pyfunc) (name : pystr) (default : value) :
  name <> py "tool_definition" ->
  getattr (tool func) name default = getattr func name default.
Proof.
  intros Hn. unfold getattr, tool, setattr. simpl __dict__.
  rewrite lookup_set_other by congruence. reflexivity.
Qed.

(** On the function objects of the agent, whose code does not read their
    attributes, registration is idempotent and leaves the behaviour alone:
    decorating a function a second time gives the very function object the
    first decoration gave, in particular the same [tool_definition], and the
    decorated function returns (or raises) on every keyword arguments what
    the undecorated one does.  Callables at large are the matter of the last
    section. *)
Lemma tool_idempotent (func : pyfunc) :
  tool (tool func) = tool func /\
  getattr_strict (tool (tool func)) (py "tool_definition")
    = getattr_strict (tool func) (py "tool_definition") /\
  (forall kwargs, __call__ (tool func) kwargs = __call__ func kwargs).
Proof.
  assert (E : tool (tool func) = tool func).
  { unfold tool at 1.
    rewrite !getattr_tool_other by (intro H; vm_compute in H; discriminate).
    unfold tool, setattr. simpl. f_equal. apply set_set. }
  split; [exact E|]. split; [rewrite E; reflexivity|].
  intros kwargs. reflexivity.
Qed.

(** The definition attached is the one the contract of the decorator
    describes: name, docstring, and the declared schemas or empty mappings. *)
Lemma tool_definition_attached (func : pyfunc) :
  getattr_strict (tool func) (py "tool_definition")
  = Return (VDict [ (py "name", VStr (__name__ func));
                    (py "description", __doc__ func);
                    (py "parameters", getattr func (py "parameters") (VDict []));
                    (py "returns", getattr func (py "returns") (VDict [])) ]).
Proof.
  unfold getattr_strict, tool, setattr. simpl __dict__.
  rewrite lookup_set_same. reflexivity.
Qed.

(** ** The parser *)

Lemma contains_cons_false (p : pystr) (c : char) (s : pystr) :
  PyStr.contains p (c :: s) = false ->
  startswith p (c :: s) = false /\ PyStr.contains p s = false.
Proof.
  simpl. intros H. apply orb_false_iff in H. exact H.
Qed.

(** Where no tag occurs, [re.sub] has nothing to drop. *)
Lemma sub_tool_call_untagged (s : pystr) :
  PyStr.contains Re.open_tag s = false ->
  PyStr.contains Re.close_tag s = false ->
  Re.sub_tool_call s = s.
Proof.
  unfold Re.sub_tool_call.
  induction s as [|c s IH]; intros Ho Hc; [reflexivity|].
  apply contains_cons_false in Ho. destruct Ho as [Ho Ho'].
  apply contains_cons_false in Hc. destruct Hc as [Hc Hc'].
  cbn [Re.sub_from]. rewrite Ho, Hc. f_equal. apply IH; assumption.
Qed.

(** C2, as stated, fails: a reply without the tags that is a JSON document is
    decoded like any other; [untagged_call] contains neither tag and is
    parsed to a call. *)
Lemma parse_untagged_not_always_None :
  ~ (forall s : pystr,
       PyStr.contains Re.open_tag s = false ->
       PyStr.contains Re.close_tag s = false ->
       parse_tool_call s = VNone).
Proof.
  intros H. specialize (H untagged_call eq_refl eq_refl).
  vm_compute in H. discriminate H.
Qed.

(** C2, amended.  On a text that contains neither tag the parser is the JSON
    decoder applied to the whole text: it gives the decoded value when the
    text is a JSON document, and [None] when it is not. *)
Theorem parse_tool_call_untagged (s : pystr) :
  PyStr.contains Re.open_tag s = false ->
  PyStr.contains Re.close_tag s = false ->
  parse_tool_call s = match Json.loads s with
                      | Some v => v
                      | None => VNone
                      end.
Proof.
  intros Ho Hc. unfold parse_tool_call.
  rewrite (sub_tool_call_untagged s Ho Hc). reflexivity.
Qed.

Lemma parse_tool_call_untagged_witness :
  PyStr.contains Re.open_tag untagged_call = false /\
  PyStr.contains Re.close_tag untagged_call = false /\
  parse_tool_call untagged_call
  = match Json.loads untagged_call with Some v => v | None => VNone end.
Proof.
  split; [reflexivity|]. split; [reflexivity|].
  apply (parse_tool_call_untagged untagged_call); reflexivity.
Defined.

(** ** The agent loop *)

(** A step without effects that returns hands its value on. *)
Lemma io_bind_return (A B : Type) (a : A) (k : A -> io B) :
  io_bind (io_lift (Return a)) k = k a.
Proof.
  unfold io_bind, io_lift. destruct (k a) as [t r]. reflexivity.
Qed.

(** A step without effects that raises ends the computation. *)
Lemma io_bind_raise (A B : Type) (e : exn) (k : A -> io B) :
  io_bind (io_lift (Raise e)) k = ([], Raise e).
Proof. reflexivity. Qed.

Section Run.
Import ToolAgent.
Variable self : ToolAgent.t.
Variable messages : list message.
Variable assistant_reply : pystr.

(** The loop stops at the first tool of the name asked for. *)
Lemma for_tool_named (name : pystr) (arguments : value) (tools : list pyfunc) :
  for_tool self messages assistant_reply (VStr name) arguments tools
  = match named name tools with
    | Some tool => try_tool self messages assistant_reply name arguments tool
    | None => io_ret VNone
    end.
Proof.
  induction tools as [|tool rest IH]; [reflexivity|].
  cbn [for_tool named find].
  destruct (PyStr.eqb (__name__ tool) name); [reflexivity | exact IH].
Qed.

(** With no tool of the name asked for the loop runs to its end, calls
    nothing, and [run] returns [None]. *)
Lemma for_tool_unmatched (func_name arguments : value) (tools : list pyfunc) :
  (forall tool, In tool tools -> py_eq (VStr (__name__ tool)) func_name = false) ->
  for_tool self messages assistant_reply func_name arguments tools = io_ret VNone.
Proof.
  induction tools as [|tool rest IH]; intros H; [reflexivity|].
  cbn [for_tool].
  assert (IH' : for_tool self messages assistant_reply func_name arguments rest
                = io_ret VNone).
  { apply IH. intros u Hu. apply H. right. exact Hu. }
  destruct func_name as [| | | |name| |]; try exact IH'.
  specialize (H tool (or_introl eq_refl)). cbn [py_eq] in H.
  rewrite H. exact IH'.
Qed.

(** [run] on a reply that parses to a non-empty dict. *)
Lemma run_reply_call (d : dict) :
  parse_tool_call assistant_reply = VDict d ->
  d <> [] ->
  run_reply self messages assistant_reply
  = (arguments <~ io_lift (map_arguments (dict_get d (py "name") VNone)
                             (dict_get d (py "arguments") (VDict []))) ;;
     for_tool self messages assistant_reply (dict_get d (py "name") VNone)
       arguments (tools self)).
Proof.
  intros Hp Hd. unfold run_reply. rewrite Hp.
  destruct d as [|kv d]; [contradiction|].
  cbn [truthy py_get]. rewrite !io_bind_return. reflexivity.
Qed.

(** C1.  What the code does on a call of a tool the registry lacks: no tool
    is invoked, but [run] does not return the reply; it falls off its end
    and returns [None] (or raises, when the reconciliation of the arguments
    of an ["add"] call fails). *)
Theorem unknown_tool_returns_None (d : dict) :
  parse_tool_call assistant_reply = VDict d ->
  d <> [] ->
  (forall tool, In tool (tools self) ->
     py_eq (VStr (__name__ tool)) (dict_get d (py "name") VNone) = false) ->
  invocations (fst (run_reply self messages assistant_reply)) = [] /\
  snd (run_reply self messages assistant_reply) <> Return (VStr assistant_reply) /\
  (py_eq (dict_get d (py "name") VNone) (VStr (py "add")) = false ->
   run_reply self messages assistant_reply = ([], Return VNone)).
Proof.
  intros Hp Hd Hn. rewrite (run_reply_call Hp Hd).
  destruct (map_arguments (dict_get d (py "name") VNone)
              (dict_get d (py "arguments") (VDict []))) as [arguments|e] eqn:Ha.
  - rewrite io_bind_return, (for_tool_unmatched _ arguments _ Hn).
    split; [reflexivity|]. split; [discriminate|reflexivity].
  - rewrite io_bind_raise. split; [reflexivity|]. split; [discriminate|].
    intros Hadd. unfold map_arguments in Ha. rewrite Hadd in Ha. discriminate.
Qed.

(** C4.  A call of a registered tool whose invocation raises [e]: [run]
    catches [e] and returns the JSON text of [{"error": str(e)}]. *)
Theorem tool_error_reported (d : dict) (name : pystr) (arguments : value)
    (tool : pyfunc) (trace : list event) (e : exn) :
  parse_tool_call assistant_reply = VDict d ->
  Dict.lookup d (py "name") = Some (VStr name) ->
  map_arguments (VStr name) (dict_get d (py "arguments") (VDict []))
    = Return arguments ->
  named name (tools self) = Some tool ->
  call tool arguments = (trace, Raise e) ->
  run_reply self messages assistant_reply
  = (trace, Return (VStr (Json.dumps (VDict [(py "error", VStr (exn_str e))])))).
Proof.
  intros Hp Hname Hargs Htool Hcall.
  assert (Hd : d <> []) by (intros ->; discriminate Hname).
  assert (Hget : dict_get d (py "name") VNone = VStr name).
  { unfold dict_get. rewrite Hname. reflexivity. }
  rewrite (run_reply_call Hp Hd), Hget, Hargs, io_bind_return.
  rewrite for_tool_named, Htool.
  unfold try_tool. rewrite Hcall. cbn. rewrite app_nil_r. reflexivity.
Qed.

(** C6.  For a call of any name but ["add"] the reconciliation is the
    identity: the loop over the registry gets the arguments as the parser
    gave them, and the tool it finds is invoked with them. *)
Theorem arguments_pass_through (d : dict) :
  parse_tool_call assistant_reply = VDict d ->
  d <> [] ->
  py_eq (dict_get d (py "name") VNone) (VStr (py "add")) = false ->
  map_arguments (dict_get d (py "name") VNone)
    (dict_get d (py "arguments") (VDict []))
  = Return (dict_get d (py "arguments") (VDict [])) /\
  run_reply self messages assistant_reply
  = for_tool self messages assistant_reply (dict_get d (py "name") VNone)
      (dict_get d (py "arguments") (VDict [])) (tools self) /\
  (forall name tool kwargs,
     dict_get d (py "name") VNone = VStr name ->
     named name (tools self) = Some tool ->
     dict_get d (py "arguments") (VDict []) = VDict kwargs ->
     exists rest,
       fst (run_reply self messages assistant_reply)
       = ToolInvocation (__name__ tool) kwargs :: rest).
Proof.
  intros Hp Hd Hadd.
  assert (Hmap : map_arguments (dict_get d (py "name") VNone)
                   (dict_get d (py "arguments") (VDict []))
                 = Return (dict_get d (py "arguments") (VDict []))).
  { unfold map_arguments. rewrite Hadd. reflexivity. }
  assert (Hrun : run_reply self messages assistant_reply
                 = for_tool self messages assistant_reply
                     (dict_get d (py "name") VNone)
                     (dict_get d (py "arguments") (VDict [])) (tools self)).
  { rewrite (run_reply_call Hp Hd), Hmap. apply io_bind_return. }
  split; [exact Hmap|]. split; [exact Hrun|].
  intros name tool kwargs Hname Htool Hkw.
  rewrite Hrun, Hname, Hkw, for_tool_named, Htool.
  unfold try_tool, call. cbn [io_emit io_bind io_lift].
  destruct (__call__ tool kwargs) as [result|e].
  - cbn [io_try io_bind create io_emit io_lift io_ret app].
    destruct (client self (model self) _); cbn; eexists; reflexivity.
  - cbn. eexists; reflexivity.
Qed.

End Run.

(** A [str] equals only that [str]. *)
Lemma py_eq_str (s : pystr) (v : value) : py_eq (VStr s) v = true <-> v = VStr s.
Proof.
  split.
  - destruct v; cbn [py_eq as_num]; try discriminate.
    intros H. apply pystr_eqb_eq in H. congruence.
  - intros ->. cbn [py_eq]. apply pystr_eqb_refl.
Qed.

(** Scenario D: a reply in which the parser finds nothing (or something
    falsy: an empty object, zero, an empty string) is returned as it is,
    and nothing is invoked. *)
Lemma run_reply_no_call (self : ToolAgent.t) (messages : list message)
    (assistant_reply : pystr) :
  truthy (parse_tool_call assistant_reply) = false ->
  ToolAgent.run_reply self messages assistant_reply
  = ([], Return (VStr assistant_reply)).
Proof.
  intros H. unfold ToolAgent.run_reply. rewrite H. reflexivity.
Qed.

(** Once a registered tool is reached, [run] returns a string whatever the
    tool and the second request to the model do. *)
Lemma run_reply_dispatched (self : ToolAgent.t) (messages : list message)
    (assistant_reply : pystr) (d : dict) (name : pystr) (arguments : value)
    (tool : pyfunc) :
  parse_tool_call assistant_reply = VDict d ->
  Dict.lookup d (py "name") = Some (VStr name) ->
  ToolAgent.map_arguments (VStr name) (dict_get d (py "arguments") (VDict []))
    = Return arguments ->
  named name (ToolAgent.tools self) = Some tool ->
  exists trace answer,
    ToolAgent.run_reply self messages assistant_reply = (trace, Return (VStr answer)).
Proof.
  intros Hp Hname Hargs Htool.
  assert (Hd : d <> []) by (intros ->; discriminate Hname).
  assert (Hget : dict_get d (py "name") VNone = VStr name).
  { unfold dict_get. rewrite Hname. reflexivity. }
  rewrite (@run_reply_call self messages assistant_reply d Hp Hd).
  rewrite Hget, Hargs, io_bind_return.
  rewrite for_tool_named, Htool. unfold ToolAgent.try_tool.
  destruct (ToolAgent.call tool arguments) as [t [result|e]].
  - cbn [io_bind ToolAgent.create io_emit io_lift io_ret io_try].
    destruct (ToolAgent.client self (ToolAgent.model self) _) as [answer|e];
      cbn; eexists; eexists; reflexivity.
  - cbn. eexists; eexists; reflexivity.
Qed.

(** [run] is [run_reply] after the first request to the model. *)
Lemma run_after_first_reply (self : ToolAgent.t) (user_msg : pystr)
    (messages : list message) (assistant_reply : pystr) :
  ToolAgent.first_messages self user_msg = Return messages ->
  ToolAgent.client self (ToolAgent.model self) messages = Return assistant_reply ->
  ToolAgent.run self user_msg
  = (ModelRequest (ToolAgent.model self) messages
       :: fst (ToolAgent.run_reply self messages assistant_reply),
     snd (ToolAgent.run_reply self messages assistant_reply)).
Proof.
  intros Hm Hc. unfold ToolAgent.run. rewrite Hm, io_bind_return.
  unfold ToolAgent.create. cbn [io_emit io_bind io_lift]. rewrite Hc.
  destruct (ToolAgent.run_reply self messages assistant_reply) as [t r].
  reflexivity.
Qed.

(** *** Scenarios of the agent loop *)

(** C1, at a concrete run: the registry holds [add], the model asks for
    [multiply]; nothing is invoked and [run] returns [None]. *)
Lemma unknown_tool_returns_None_witness :
  ToolAgent.run_reply add_agent [] multiply_reply = ([], Return VNone).
Proof.
  refine (proj2 (proj2 (@unknown_tool_returns_None add_agent [] multiply_reply
    [ (py "name", VStr (py "multiply"));
      (py "arguments", VDict [(py "a", VInt 5); (py "b", VInt 3)]) ]
    _ _ _)) _).
  - vm_compute. reflexivity.
  - discriminate.
  - intros tool [<-|[]]. vm_compute. reflexivity.
  - vm_compute. reflexivity.
Defined.

(** C3.  What the code does on a reply that holds a list of calls: the
    decoded list is truthy and has no [get], so the [AttributeError] raised
    by [tool_call.get("name")] leaves [run]. *)
Theorem list_reply_raises (self : ToolAgent.t) (messages : list message) :
  ToolAgent.run_reply self messages two_calls_reply
  = ([], Raise (AttributeError (py "'list' object has no attribute 'get'"))).
Proof.
  unfold ToolAgent.run_reply.
  set (tool_call := parse_tool_call two_calls_reply).
  vm_compute in tool_call. subst tool_call.
  reflexivity.
Qed.

Lemma tool_error_reported_witness :
  ToolAgent.run_reply add_agent [] add_nothing_reply
  = ([ToolInvocation (py "add") [(py "x", VNone); (py "y", VNone)]],
     Return (VStr (pyq "{`error`: `unsupported operand type(s) for +: 'NoneType' and 'NoneType'`}"))).
Proof.
  refine (@tool_error_reported add_agent [] add_nothing_reply
    [(py "name", VStr (py "add"))] (py "add")
    (VDict [(py "x", VNone); (py "y", VNone)]) add_fn
    [ToolInvocation (py "add") [(py "x", VNone); (py "y", VNone)]]
    (unsupported_operand (py "+") VNone VNone) _ _ _ _ _).
  - vm_compute. reflexivity.
  - reflexivity.
  - reflexivity.
  - reflexivity.
  - reflexivity.
Defined.

Lemma arguments_pass_through_witness :
  ToolAgent.map_arguments (VStr (py "process_data"))
    (VDict [(py "data", VList [VDict [(py "score", VInt 10)]]);
            (py "operation", VStr (py "count"))])
  = Return (VDict [(py "data", VList [VDict [(py "score", VInt 10)]]);
                   (py "operation", VStr (py "count"))]).
Proof.
  refine (proj1 (@arguments_pass_through two_tool_agent [] count_reply
    [ (py "name", VStr (py "process_data"));
      (py "arguments",
       VDict [(py "data", VList [VDict [(py "score", VInt 10)]]);
              (py "operation", VStr (py "count"))]) ]
    _ _ _)).
  - vm_compute. reflexivity.
  - discriminate.
  - vm_compute. reflexivity.
Defined.

(** C5.  Scenario A: the reply is parsed to the call of [add] with [num1]
    and [num2], the keys are rewritten to [x] and [y], the call of [add]
    returns [8], and [run] sends that result to the model and returns what
    the model answers (or, should that request raise, the error as JSON). *)
Theorem add_5_3_scenario (self : ToolAgent.t) (messages : list message) :
  named (py "add") (ToolAgent.tools self) = Some add_fn ->
  parse_tool_call add_5_3_reply
  = VDict [ (py "name", VStr (py "add"));
            (py "arguments", VDict [(py "num1", VInt 5); (py "num2", VInt 3)]) ] /\
  ToolAgent.map_arguments (VStr (py "add"))
    (VDict [(py "num1", VInt 5); (py "num2", VInt 3)])
  = Return (VDict [(py "x", VInt 5); (py "y", VInt 3)]) /\
  ToolAgent.call add_fn (VDict [(py "x", VInt 5); (py "y", VInt 3)])
  = ([ToolInvocation (py "add") [(py "x", VInt 5); (py "y", VInt 3)]],
     Return (VInt 8)) /\
  let messages' :=
    messages ++ [ Message (py "assistant") add_5_3_reply;
                  Message (py "user") (py "The result of add is: 8") ] in
  ToolAgent.run_reply self messages add_5_3_reply
  = ([ ToolInvocation (py "add") [(py "x", VInt 5); (py "y", VInt 3)];
       ModelRequest (ToolAgent.model self) messages' ],
     match ToolAgent.client self (ToolAgent.model self) messages' with
     | Return answer => Return (VStr answer)
     | Raise e => Return (VStr (Json.dumps (VDict [(py "error", VStr (exn_str e))])))
     end).
Proof.
  intros Hadd.
  assert (Hp : parse_tool_call add_5_3_reply
               = VDict [ (py "name", VStr (py "add"));
                         (py "arguments",
                          VDict [(py "num1", VInt 5); (py "num2", VInt 3)]) ])
    by (vm_compute; reflexivity).
  split; [exact Hp|]. split; [reflexivity|]. split; [reflexivity|].
  intros messages'.
  rewrite (@run_reply_call self messages add_5_3_reply _ Hp) by discriminate.
  change (dict_get _ (py "name") VNone) with (VStr (py "add")).
  change (ToolAgent.map_arguments _ _)
    with (Return (VDict [(py "x", VInt 5); (py "y", VInt 3)])).
  rewrite io_bind_return, for_tool_named, Hadd.
  unfold ToolAgent.try_tool.
  change (ToolAgent.call add_fn _)
    with ([ToolInvocation (py "add") [(py "x", VInt 5); (py "y", VInt 3)]],
          Return (VInt 8)).
  cbn [io_bind io_try ToolAgent.create io_emit io_lift io_ret app].
  change (py "The result of " ++ py "add" ++ py " is: " ++ Json.dumps (VInt 8))
    with (py "The result of add is: 8").
  fold messages'.
  destruct (ToolAgent.client self (ToolAgent.model self) messages'); reflexivity.
Qed.

Lemma add_5_3_scenario_witness :
  ToolAgent.run_reply add_agent [] add_5_3_reply
  = ([ ToolInvocation (py "add") [(py "x", VInt 5); (py "y", VInt 3)];
       ModelRequest (py "llama3-groq-70b-8192-tool-use-preview")
         [ Message (py "assistant") add_5_3_reply;
           Message (py "user") (py "The result of add is: 8") ] ],
     Return (VStr (py "The answer is 8."))).
Proof.
  exact (proj2 (proj2 (proj2 (@add_5_3_scenario add_agent [] eq_refl)))).
Defined.

(** ** [process_data] *)

(** C8.  Scenario B: the average of the scores 10, 20 and 30 is the quotient
    [60 / 3], the float [20.0], which is the number 20: the dict returned
    equals [{"average_score": 20}].  The call through the function object
    with keyword arguments gives the same. *)
Theorem process_data_average_three_scores :
  process_data three_scores (VStr (py "average"))
  = Return (VDict [(py "average_score", VFloat 20%float)]) /\
  py_eq (VDict [(py "average_score", VFloat 20%float)])
        (VDict [(py "average_score", VInt 20)]) = true /\
  __call__ process_data_fn
    [(py "data", three_scores); (py "operation", VStr (py "average"))]
  = Return (VDict [(py "average_score", VFloat 20%float)]).
Proof.
  split; [vm_compute; reflexivity|].
  split; vm_compute; reflexivity.
Qed.

(** Articles without a score contribute nothing to the scores. *)
Lemma scores_of_lacking (articles : list value) :
  forallb lacks_score articles = true -> scores_of articles = Return [].
Proof.
  induction articles as [|article rest IH]; intros H; [reflexivity|].
  cbn [forallb] in H. apply andb_true_iff in H. destruct H as [Ha Hr].
  cbn [scores_of]. destruct article as [| | | | | |d]; try discriminate Ha.
  cbn [lacks_score] in Ha. apply negb_true_iff in Ha.
  cbn [py_in bind]. rewrite Ha. apply IH. exact Hr.
Qed.

(** C9.  On a list of dicts none of which has a score, the empty list
    included, the average is [{"average_score": 0}]: the list of scores is
    empty, the test on it fails, and the division is not evaluated. *)
Theorem process_data_average_no_scores (articles : list value) :
  forallb lacks_score articles = true ->
  process_data (VList articles) (VStr (py "average"))
  = Return (VDict [(py "average_score", VInt 0)]).
Proof.
  intros H. unfold process_data.
  change (py_eq (VStr (py "average")) (VStr (py "count"))) with false.
  change (py_eq (VStr (py "average")) (VStr (py "average"))) with true.
  cbn [py_iter bind]. rewrite (scores_of_lacking articles H). reflexivity.
Qed.

Lemma process_data_average_no_scores_witness :
  process_data (VList [VDict [(py "title", VStr (py "Show HN"))]; VDict []])
    (VStr (py "average"))
  = Return (VDict [(py "average_score", VInt 0)]) /\
  process_data (VList []) (VStr (py "average"))
  = Return (VDict [(py "average_score", VInt 0)]).
Proof.
  split.
  - apply (process_data_average_no_scores
             [VDict [(py "title", VStr (py "Show HN"))]; VDict []]).
    reflexivity.
  - apply (process_data_average_no_scores []). reflexivity.
Defined.

(** Where the division is evaluated its divisor, the number of scores, is
    not zero. *)
Lemma average_divisor_nonzero (scores : list value) :
  truthy (VList scores) = true -> Z.of_nat (List.length scores) <> 0.
Proof.
  destruct scores as [|s scores]; [discriminate|]. intros _.
  cbn [List.length]. lia.
Qed.

(** C10.  An operation that is none of ["count"], ["average"] and ["max"]
    gives [{"error": "Invalid operation"}], whatever the data are, and
    nothing is raised: the data are not looked at. *)
Theorem process_data_invalid_operation (data : value) (operation : pystr) :
  operation <> py "count" ->
  operation <> py "average" ->
  operation <> py "max" ->
  process_data data (VStr operation)
  = Return (VDict [(py "error", VStr (py "Invalid operation"))]).
Proof.
  intros Hc Ha Hm. unfold process_data. cbn [py_eq].
  apply pystr_eqb_neq in Hc, Ha, Hm. rewrite Hc, Ha, Hm. reflexivity.
Qed.

Lemma process_data_invalid_operation_witness :
  process_data three_scores (VStr (py "sum"))
  = Return (VDict [(py "error", VStr (py "Invalid operation"))]).
Proof.
  apply (process_data_invalid_operation three_scores (operation := py "sum"));
    intro H; vm_compute in H; discriminate H.
Defined.

(** *** Whole runs, from the user message on *)

(** Scenario A from end to end: one invocation, of [add] with [x = 5] and
    [y = 3], and the answer of the model to its result. *)
Example run_add_5_3 :
  let r := ToolAgent.run (ToolAgent.__init__ (scripted_model add_5_3_reply) [add_fn])
             (py "Add 5 and 3") in
  invocations (fst r) = [ToolInvocation (py "add") [(py "x", VInt 5); (py "y", VInt 3)]] /\
  snd r = Return (VStr (py "The answer is 8.")).
Proof. vm_compute. split; reflexivity. Qed.

(** A tool the registry lacks: nothing is invoked and [run] returns [None]. *)
Example run_unknown_tool :
  let r := ToolAgent.run (ToolAgent.__init__ (scripted_model multiply_reply) [add_fn])
             (py "Multiply 5 by 3") in
  invocations (fst r) = [] /\ snd r = Return VNone.
Proof. vm_compute. split; reflexivity. Qed.

(** A list of calls: [run] raises. *)
Example run_list_of_calls :
  snd (ToolAgent.run (ToolAgent.__init__ (scripted_model two_calls_reply) [add_fn])
         (py "Add 5 and 3, then 1 and 2"))
  = Raise (AttributeError (py "'list' object has no attribute 'get'")).
Proof. vm_compute. reflexivity. Qed.

(** A function that was not decorated cannot be advertised: [run] raises
    before the model is asked. *)
Example run_undecorated_tool :
  ToolAgent.run
    (ToolAgent.__init__ canned_model
       [ {| __name__ := py "noop"; __module__ := this_module; __doc__ := VNone;
            __dict__ := []; __call__ := fun _ => Return VNone |} ])
    (py "hello")
  = ([], Raise (AttributeError
                  (py "'function' object has no attribute 'tool_definition'"))).
Proof. vm_compute. reflexivity. Qed.

(** What the model is shown of the two tools. *)
Example add_tool_definition :
  bind (getattr_strict add_fn (py "tool_definition")) (fun d => Return (Json.dumps d))
  = Return (pyq "{`name`: `add`, `description`: `Add two numbers.`, `parameters`: {}, `returns`: {}}").
Proof. vm_compute. reflexivity. Qed.

(* ================================================================== *)
(** * Further properties of the agent loop *)
(* ================================================================== *)

(** What the error branch of [run] returns for an exception. *)
Lemma try_tool_cases (self : ToolAgent.t) (messages : list message)
    (assistant_reply name : pystr) (arguments : value) (tool : pyfunc) :
  ToolAgent.try_tool self messages assistant_reply name arguments tool
  = match arguments with
    | VDict kwargs =>
        match __call__ tool kwargs with
        | Return result =>
            let messages' :=
              messages ++
              [ Message (py "assistant") assistant_reply;
                Message (py "user")
                  (py "The result of " ++ name ++ py " is: " ++ Json.dumps result) ] in
            ([ ToolInvocation (__name__ tool) kwargs;
               ModelRequest (ToolAgent.model self) messages' ],
             match ToolAgent.client self (ToolAgent.model self) messages' with
             | Return answer => Return (VStr answer)
             | Raise e =>
                 Return (VStr (Json.dumps (VDict [(py "error", VStr (exn_str e))])))
             end)
        | Raise e =>
            ([ToolInvocation (__name__ tool) kwargs],
             Return (VStr (Json.dumps (VDict [(py "error", VStr (exn_str e))]))))
        end
    | _ =>
        ([], Return (VStr (Json.dumps (VDict [(py "error", VStr
               (__module__ tool ++ py "." ++ __name__ tool
                  ++ py "() argument after ** must be a mapping, not "
                  ++ type_name arguments))]))))
    end.
Proof.
  unfold ToolAgent.try_tool, ToolAgent.call.
  destruct arguments as [| | | | | |kwargs]; try reflexivity.
  cbn [io_emit io_bind io_lift].
  destruct (__call__ tool kwargs) as [result|e]; [|reflexivity].
  cbn [io_try io_bind ToolAgent.create io_emit io_lift io_ret app].
  destruct (ToolAgent.client self (ToolAgent.model self) _); reflexivity.
Qed.

(** The loop either finds no tool or hands over to the [try] statement for
    the first tool of the name. *)
Lemma for_tool_cases (self : ToolAgent.t) (messages : list message)
    (assistant_reply : pystr) (func_name arguments : value) (tools : list pyfunc) :
  ToolAgent.for_tool self messages assistant_reply func_name arguments tools
    = io_ret VNone \/
  exists name tool,
    func_name = VStr name /\ named name tools = Some tool /\
    ToolAgent.for_tool self messages assistant_reply func_name arguments tools
    = ToolAgent.try_tool self messages assistant_reply name arguments tool.
Proof.
  destruct func_name as [| | | |name| |];
    try (left; apply for_tool_unmatched; intros; reflexivity).
  rewrite for_tool_named. destruct (named name tools) as [tool|] eqn:E.
  - right. exists name, tool. repeat split. exact E.
  - left. reflexivity.
Qed.

(** [run] after the first reply, by the shape of what was parsed. *)
Lemma run_reply_cases (self : ToolAgent.t) (messages : list message)
    (assistant_reply : pystr) :
  ToolAgent.run_reply self messages assistant_reply
    = ([], Return (VStr assistant_reply)) \/
  ToolAgent.run_reply self messages assistant_reply = ([], Return VNone) \/
  (exists v, ToolAgent.run_reply self messages assistant_reply
             = ([], Raise (AttributeError (quoted (type_name v)
                             ++ py " object has no attribute 'get'")))) \/
  (exists name arguments tool,
     named name (ToolAgent.tools self) = Some tool /\
     ToolAgent.run_reply self messages assistant_reply
     = ToolAgent.try_tool self messages assistant_reply name arguments tool).
Proof.
  unfold ToolAgent.run_reply.
  destruct (truthy (parse_tool_call assistant_reply)) eqn:Ht; [|left; reflexivity].
  right.
  destruct (parse_tool_call assistant_reply) as [| | | | | |d] eqn:Hp;
    try (right; left; eexists; reflexivity).
  cbn [py_get]. rewrite !io_bind_return.
  unfold ToolAgent.map_arguments.
  destruct (py_eq _ (VStr (py "add"))).
  - set (a := match Dict.lookup d (py "arguments") with
              | Some x => x | None => VDict [] end).
    destruct a as [| | | | | |kw] eqn:Ea;
      try (right; left; eexists; reflexivity).
    cbn [py_get bind]. rewrite io_bind_return.
    destruct (for_tool_cases self messages assistant_reply
                (match Dict.lookup d (py "name") with Some x => x | None => VNone end)
                (VDict [(py "x", match Dict.lookup kw (py "num1") with
                                 | Some x => x | None => VNone end);
                        (py "y", match Dict.lookup kw (py "num2") with
                                 | Some x => x | None => VNone end)])
                (ToolAgent.tools self)) as [H|(name & tool & Hn & Ht' & H)].
    + left. exact H.
    + right. right. exists name. eexists. exists tool. split; [exact Ht'|exact H].
  - rewrite io_bind_return.
    destruct (for_tool_cases self messages assistant_reply
                (match Dict.lookup d (py "name") with Some x => x | None => VNone end)
                (match Dict.lookup d (py "arguments") with
                 | Some x => x | None => VDict [] end)
                (ToolAgent.tools self)) as [H|(name & tool & Hn & Ht' & H)].
    + left. exact H.
    + right. right. exists name. eexists. exists tool. split; [exact Ht'|exact H].
Qed.

(** X1.  Whatever the reply, the tools and the model do, [run] after the
    first reply ends in one of three ways: it returns a string, it returns
    [None], or it raises the [AttributeError] of a [.get] on a value that is
    not a dict.  No exception of a tool or of the second request leaves it. *)
Theorem run_reply_result_kinds (self : ToolAgent.t) (messages : list message)
    (assistant_reply : pystr) :
  (exists answer, snd (ToolAgent.run_reply self messages assistant_reply)
                  = Return (VStr answer)) \/
  snd (ToolAgent.run_reply self messages assistant_reply) = Return VNone \/
  (exists v, snd (ToolAgent.run_reply self messages assistant_reply)
             = Raise (AttributeError (quoted (type_name v)
                        ++ py " object has no attribute 'get'"))).
Proof.
  destruct (run_reply_cases self messages assistant_reply)
    as [H|[H|[[v H]|(name & arguments & tool & _ & H)]]]; rewrite H.
  - left. eexists; reflexivity.
  - right. left. reflexivity.
  - right. right. exists v. reflexivity.
  - left. rewrite try_tool_cases.
    destruct arguments as [| | | | | |kwargs]; try (eexists; reflexivity).
    destruct (__call__ tool kwargs); [|eexists; reflexivity].
    cbn [snd]. destruct (ToolAgent.client _ _ _); eexists; reflexivity.
Qed.

(** X2.  After the first reply [run] invokes at most one tool and asks the
    model at most once more, and only after the tool has returned: the events
    are none, one invocation, or one invocation followed by one request whose
    conversation is the opening one extended by the assistant's reply and a
    user message. *)
Theorem run_reply_trace_shape (self : ToolAgent.t) (messages : list message)
    (assistant_reply : pystr) :
  let trace := fst (ToolAgent.run_reply self messages assistant_reply) in
  trace = [] \/
  (exists name kwargs, trace = [ToolInvocation name kwargs]) \/
  (exists name kwargs text,
     trace = [ ToolInvocation name kwargs;
               ModelRequest (ToolAgent.model self)
                 (messages ++ [ Message (py "assistant") assistant_reply;
                                Message (py "user") text ]) ]).
Proof.
  cbv zeta.
  destruct (run_reply_cases self messages assistant_reply)
    as [H|[H|[[v H]|(name & arguments & tool & _ & H)]]]; rewrite H;
    try (left; reflexivity).
  rewrite try_tool_cases.
  destruct arguments as [| | | | | |kwargs]; try (left; reflexivity).
  destruct (__call__ tool kwargs) as [result|e].
  - right. right. do 3 eexists. reflexivity.
  - right. left. do 2 eexists. reflexivity.
Qed.

(** X3.  A tool that returns a result [json.dumps] accepts (a [value] within
    the interpreter's limits, [json_serializable]; an in-band [{"error": ...}]
    is one): the JSON text of the result is sent to the model as a user
    message after the assistant's reply, and when the model answers, [run]
    returns its answer. *)
Theorem tool_result_forwarded (self : ToolAgent.t) (messages : list message)
    (assistant_reply : pystr) (d : dict) (name : pystr) (kwargs : dict)
    (tool : pyfunc) (result : value) (answer : pystr) :
  parse_tool_call assistant_reply = VDict d ->
  Dict.lookup d (py "name") = Some (VStr name) ->
  ToolAgent.map_arguments (VStr name) (dict_get d (py "arguments") (VDict []))
    = Return (VDict kwargs) ->
  named name (ToolAgent.tools self) = Some tool ->
  __call__ tool kwargs = Return result ->
  json_serializable result = true ->
  let messages' :=
    messages ++
    [ Message (py "assistant") assistant_reply;
      Message (py "user")
        (py "The result of " ++ name ++ py " is: " ++ Json.dumps result) ] in
  ToolAgent.client self (ToolAgent.model self) messages' = Return answer ->
  ToolAgent.run_reply self messages assistant_reply
  = ([ ToolInvocation (__name__ tool) kwargs;
       ModelRequest (ToolAgent.model self) messages' ],
     Return (VStr answer)).
Proof.
  intros Hp Hname Hargs Htool Hcall _ messages' Hanswer.
  assert (Hd : d <> []) by (intros ->; discriminate Hname).
  assert (Hget : dict_get d (py "name") VNone = VStr name).
  { unfold dict_get. rewrite Hname. reflexivity. }
  rewrite (@run_reply_call self messages assistant_reply d Hp Hd).
  rewrite Hget, Hargs, io_bind_return, for_tool_named, Htool, try_tool_cases, Hcall.
  cbv zeta. fold messages'. rewrite Hanswer. reflexivity.
Qed.

Lemma tool_result_forwarded_witness :
  ToolAgent.run_reply two_tool_agent [] median_reply
  = ([ ToolInvocation (py "process_data")
         [ (py "data", VList [VDict [(py "score", VInt 10)]]);
           (py "operation", VStr (py "median")) ];
       ModelRequest (py "llama3-groq-70b-8192-tool-use-preview")
         [ Message (py "assistant") median_reply;
           Message (py "user")
             (pyq "The result of process_data is: {`error`: `Invalid operation`}") ] ],
     Return (VStr (py "The answer is 8."))).
Proof.
  refine (@tool_result_forwarded two_tool_agent [] median_reply
    [ (py "name", VStr (py "process_data"));
      (py "arguments",
       VDict [ (py "data", VList [VDict [(py "score", VInt 10)]]);
               (py "operation", VStr (py "median")) ]) ]
    (py "process_data")
    [ (py "data", VList [VDict [(py "score", VInt 10)]]);
      (py "operation", VStr (py "median")) ]
    process_data_fn
    (VDict [(py "error", VStr (py "Invalid operation"))])
    (py "The answer is 8.") _ _ _ _ _ _ _).
  - vm_compute. reflexivity.
  - reflexivity.
  - reflexivity.
  - reflexivity.
  - reflexivity.
  - reflexivity.
  - reflexivity.
Defined.



(** X5.  A first reply that, its tags dropped, is not a JSON document is the
    answer: [run] returns it as it is, after one request to the model and
    without invoking a tool. *)
Theorem run_plain_reply (self : ToolAgent.t) (user_msg : pystr)
    (messages : list message) (assistant_reply : pystr) :
  ToolAgent.first_messages self user_msg = Return messages ->
  ToolAgent.client self (ToolAgent.model self) messages = Return assistant_reply ->
  Json.loads (Re.sub_tool_call assistant_reply) = None ->
  ToolAgent.run self user_msg
  = ([ModelRequest (ToolAgent.model self) messages], Return (VStr assistant_reply)).
Proof.
  intros Hm Hc Hj. unfold ToolAgent.run. rewrite Hm, io_bind_return.
  unfold ToolAgent.create. cbn [io_emit io_bind io_lift]. rewrite Hc.
  unfold ToolAgent.run_reply, parse_tool_call. rewrite Hj. reflexivity.
Qed.

Lemma run_plain_reply_witness :
  snd (ToolAgent.run add_agent (py "What is 5 plus 3?"))
  = Return (VStr (py "The answer is 8.")).
Proof.
  refine (f_equal snd (@run_plain_reply add_agent (py "What is 5 plus 3?")
                         _ (py "The answer is 8.") _ _ _)).
  - reflexivity.
  - reflexivity.
  - vm_compute. reflexivity.
Defined.

(** X6.  Of several tools of one name the first in the registry is the one
    called; those after it are never reached. *)
Theorem first_named_tool_wins (self : ToolAgent.t) (messages : list message)
    (assistant_reply name : pystr) (arguments : value)
    (before after : list pyfunc) (tool : pyfunc) :
  forallb (fun other => negb (PyStr.eqb (__name__ other) name)) before = true ->
  __name__ tool = name ->
  ToolAgent.for_tool self messages assistant_reply (VStr name) arguments
    (before ++ tool :: after)
  = ToolAgent.try_tool self messages assistant_reply name arguments tool.
Proof.
  intros Hb Hn. rewrite for_tool_named. unfold named.
  induction before as [|other before IH]; cbn [app find].
  - rewrite Hn, pystr_eqb_refl. reflexivity.
  - cbn [forallb] in Hb. apply andb_true_iff in Hb. destruct Hb as [Ho Hb].
    apply negb_true_iff in Ho. rewrite Ho. apply IH. exact Hb.
Qed.

Lemma first_named_tool_wins_witness :
  ToolAgent.for_tool add_agent [] add_5_3_reply (VStr (py "add"))
    (VDict [(py "x", VInt 5); (py "y", VInt 3)])
    ([process_data_fn] ++ add_fn :: [noop; add_fn])
  = ToolAgent.try_tool add_agent [] add_5_3_reply (py "add")
      (VDict [(py "x", VInt 5); (py "y", VInt 3)]) add_fn.
Proof.
  apply (@first_named_tool_wins add_agent [] add_5_3_reply (py "add")
           (VDict [(py "x", VInt 5); (py "y", VInt 3)])
           [process_data_fn] [noop; add_fn] add_fn); reflexivity.
Defined.

(** The definition read back from a decorated function. *)
Lemma getattr_strict_decorated (func : pyfunc) :
  getattr_strict (tool func) (py "tool_definition") = Return (tool_definition_of func).
Proof.
  unfold getattr_strict, tool, setattr. simpl __dict__.
  rewrite lookup_set_same. reflexivity.
Qed.

(** X7.  For a registry of decorated functions whose definitions
    [json.dumps] accepts (docstring and declared schemas that are [value]s
    within the interpreter's limits, [json_serializable]), the opening
    conversation is built: a system message, whose prompt lists the JSON text
    of the definition of each tool, one per line in registry order, and then
    the user message as it was given. *)
Theorem first_messages_decorated (self : ToolAgent.t) (user_msg : pystr)
    (funcs : list pyfunc) :
  ToolAgent.tools self = map tool funcs ->
  forallb (fun func => json_serializable (tool_definition_of func)) funcs = true ->
  ToolAgent.first_messages self user_msg
  = Return [ Message (py "system")
               (TOOL_SYSTEM_PROMPT_format
                  (join nl (map (fun func => Json.dumps (tool_definition_of func)) funcs)));
             Message (py "user") user_msg ].
Proof.
  intros Ht _. unfold ToolAgent.first_messages. rewrite Ht.
  match goal with
  | |- bind (?F (map tool funcs)) _ = _ =>
      assert (E : F (map tool funcs)
                  = Return (map (fun func => Json.dumps (tool_definition_of func)) funcs))
  end.
  { clear Ht. induction funcs as [|func funcs IH]; [reflexivity|].
    cbn [map]. rewrite getattr_strict_decorated. cbn [bind].
    rewrite IH. reflexivity. }
  rewrite E. reflexivity.
Qed.

Lemma first_messages_decorated_witness :
  ToolAgent.first_messages two_tool_agent (py "Add 5 and 3")
  = Return [ Message (py "system")
               (TOOL_SYSTEM_PROMPT_format
                  (Json.dumps (tool_definition_of add_fn) ++ nl
                     ++ Json.dumps (tool_definition_of process_data_fn)));
             Message (py "user") (py "Add 5 and 3") ].
Proof.
  apply (@first_messages_decorated two_tool_agent (py "Add 5 and 3")
           [ {| __name__ := py "add"; __module__ := this_module;
                __doc__ := __doc__ add_fn; __dict__ := [];
                __call__ := __call__ add_fn |};
             {| __name__ := py "process_data"; __module__ := this_module;
                __doc__ := __doc__ process_data_fn; __dict__ := [];
                __call__ := __call__ process_data_fn |} ]).
  - reflexivity.
  - reflexivity.
Defined.



(** X9.  The reconciler reads only [num1] and [num2]: a call of [add] whose
    arguments lack both, one written with the parameter names [x] and [y]
    included, reaches [add] as [x = None, y = None], and [run] returns the
    [TypeError] of [None + None] as JSON. *)
Theorem add_without_num_keys (self : ToolAgent.t) (messages : list message)
    (assistant_reply : pystr) (d kwargs : dict) :
  parse_tool_call assistant_reply = VDict d ->
  Dict.lookup d (py "name") = Some (VStr (py "add")) ->
  dict_get d (py "arguments") (VDict []) = VDict kwargs ->
  Dict.lookup kwargs (py "num1") = None ->
  Dict.lookup kwargs (py "num2") = None ->
  named (py "add") (ToolAgent.tools self) = Some add_fn ->
  ToolAgent.run_reply self messages assistant_reply
  = ([ToolInvocation (py "add") [(py "x", VNone); (py "y", VNone)]],
     Return (VStr (pyq "{`error`: `unsupported operand type(s) for +: 'NoneType' and 'NoneType'`}"))).
Proof.
  intros Hp Hname Hargs H1 H2 Htool.
  assert (Hd : d <> []) by (intros ->; discriminate Hname).
  assert (Hget : dict_get d (py "name") VNone = VStr (py "add")).
  { unfold dict_get. rewrite Hname. reflexivity. }
  rewrite (@run_reply_call self messages assistant_reply d Hp Hd).
  rewrite Hget, Hargs.
  assert (Hmap : ToolAgent.map_arguments (VStr (py "add")) (VDict kwargs)
                 = Return (VDict [(py "x", VNone); (py "y", VNone)])).
  { unfold ToolAgent.map_arguments.
    change (py_eq (VStr (py "add")) (VStr (py "add"))) with true.
    cbn [py_get bind]. rewrite H1, H2. reflexivity. }
  rewrite Hmap, io_bind_return, for_tool_named, Htool, try_tool_cases.
  reflexivity.
Qed.

Lemma add_without_num_keys_witness :
  ToolAgent.run_reply add_agent [] add_x_y_reply
  = ([ToolInvocation (py "add") [(py "x", VNone); (py "y", VNone)]],
     Return (VStr (pyq "{`error`: `unsupported operand type(s) for +: 'NoneType' and 'NoneType'`}"))).
Proof.
  refine (@add_without_num_keys add_agent [] add_x_y_reply
    [ (py "name", VStr (py "add"));
      (py "arguments", VDict [(py "x", VInt 5); (py "y", VInt 3)]) ]
    [(py "x", VInt 5); (py "y", VInt 3)] _ _ _ _ _ _).
  - vm_compute. reflexivity.
  - reflexivity.
  - reflexivity.
  - reflexivity.
  - reflexivity.
  - reflexivity.
Defined.

(** X10.  A call of [add] on two integers whose sum the interpreter writes
    in decimal (at most 4300 digits, [json_serializable]): [add] is invoked
    with them as [x] and [y], and the user message sent to the model holds
    their exact sum in decimal; nothing wraps around at the size of a machine
    word. *)
Theorem add_integers_exact (self : ToolAgent.t) (messages : list message)
    (assistant_reply : pystr) (d kwargs : dict) (a b : Z) :
  parse_tool_call assistant_reply = VDict d ->
  Dict.lookup d (py "name") = Some (VStr (py "add")) ->
  dict_get d (py "arguments") (VDict []) = VDict kwargs ->
  Dict.lookup kwargs (py "num1") = Some (VInt a) ->
  Dict.lookup kwargs (py "num2") = Some (VInt b) ->
  named (py "add") (ToolAgent.tools self) = Some add_fn ->
  json_serializable (VInt (a + b)) = true ->
  let messages' :=
    messages ++ [ Message (py "assistant") assistant_reply;
                  Message (py "user")
                    (py "The result of add is: " ++ PyStr.of_Z (a + b)) ] in
  ToolAgent.run_reply self messages assistant_reply
  = ([ ToolInvocation (py "add") [(py "x", VInt a); (py "y", VInt b)];
       ModelRequest (ToolAgent.model self) messages' ],
     match ToolAgent.client self (ToolAgent.model self) messages' with
     | Return answer => Return (VStr answer)
     | Raise e => Return (VStr (Json.dumps (VDict [(py "error", VStr (exn_str e))])))
     end).
Proof.
  intros Hp Hname Hargs H1 H2 Htool _ messages'.
  assert (Hd : d <> []) by (intros ->; discriminate Hname).
  assert (Hget : dict_get d (py "name") VNone = VStr (py "add")).
  { unfold dict_get. rewrite Hname. reflexivity. }
  rewrite (@run_reply_call self messages assistant_reply d Hp Hd).
  rewrite Hget, Hargs.
  assert (Hmap : ToolAgent.map_arguments (VStr (py "add")) (VDict kwargs)
                 = Return (VDict [(py "x", VInt a); (py "y", VInt b)])).
  { unfold ToolAgent.map_arguments.
    change (py_eq (VStr (py "add")) (VStr (py "add"))) with true.
    cbn [py_get bind]. rewrite H1, H2. reflexivity. }
  rewrite Hmap, io_bind_return, for_tool_named, Htool, try_tool_cases.
  change (__call__ add_fn [(py "x", VInt a); (py "y", VInt b)])
    with (Return (A := value) (VInt (a + b))).
  reflexivity.
Qed.

Lemma add_integers_exact_witness :
  ToolAgent.run_reply add_agent [] big_add_reply
  = ([ ToolInvocation (py "add")
         [(py "x", VInt 18446744073709551616); (py "y", VInt 1)];
       ModelRequest (py "llama3-groq-70b-8192-tool-use-preview")
         [ Message (py "assistant") big_add_reply;
           Message (py "user") (py "The result of add is: 18446744073709551617") ] ],
     Return (VStr (py "The answer is 8."))).
Proof.
  refine (@add_integers_exact add_agent [] big_add_reply
    [ (py "name", VStr (py "add"));
      (py "arguments",
       VDict [(py "num1", VInt 18446744073709551616); (py "num2", VInt 1)]) ]
    [(py "num1", VInt 18446744073709551616); (py "num2", VInt 1)]
    18446744073709551616 1 _ _ _ _ _ _ _).
  - vm_compute. reflexivity.
  - reflexivity.
  - reflexivity.
  - reflexivity.
  - reflexivity.
  - reflexivity.
  - vm_compute. reflexivity.
Defined.

(* ================================================================== *)
(** * Further properties of [process_data] *)
(* ================================================================== *)

Lemma scores_of_integer_scored (articles : list value) :
  forallb integer_scored articles = true ->
  scores_of articles = Return (map VInt (map int_score_of (filter has_score articles))).
Proof.
  induction articles as [|article rest IH]; intros H; [reflexivity|].
  cbn [forallb] in H. apply andb_true_iff in H. destruct H as [Ha Hr].
  specialize (IH Hr).
  destruct article as [| | | | | |d]; try discriminate Ha.
  cbn [integer_scored] in Ha.
  destruct (Dict.lookup d (py "score")) as [[| |n| | | |]|] eqn:El;
    try discriminate Ha.
  - cbn [scores_of py_in bind]. unfold Dict.mem. rewrite El.
    cbn [py_get]. rewrite El. cbn [bind]. rewrite IH.
    cbn [bind filter has_score]. unfold Dict.mem. rewrite El.
    cbn [map int_score_of]. rewrite El. reflexivity.
  - cbn [scores_of py_in bind]. unfold Dict.mem. rewrite El. rewrite IH.
    cbn [filter has_score]. unfold Dict.mem. rewrite El. reflexivity.
Qed.

Lemma sum_from_integers (acc : Z) (ns : list Z) :
  sum_from (VInt acc) (map VInt ns) = Return (VInt (acc + sum_Z ns)).
Proof.
  revert acc. induction ns as [|n ns IH]; intros acc; cbn [map sum_from sum_Z fold_right].
  - rewrite Z.add_0_r. reflexivity.
  - cbn [py_add as_num bind]. rewrite IH. fold (sum_Z ns).
    rewrite Z.add_assoc. reflexivity.
Qed.

(** X11.  The average over articles whose scores are integers: articles
    without a score count neither in the sum nor in the divisor, and the
    result is the float nearest to the exact quotient of the sum by the
    number of scores ([0], an [int], when there is no score at all). *)
Theorem process_data_average_integers (articles : list value) :
  forallb integer_scored articles = true ->
  let scores := map int_score_of (filter has_score articles) in
  process_data (VList articles) (VStr (py "average"))
  = match scores with
    | [] => Return (VDict [(py "average_score", VInt 0)])
    | _ :: _ =>
        match PyFloat.truediv_Z (sum_Z scores) (Z.of_nat (List.length scores)) with
        | Some f => Return (VDict [(py "average_score", VFloat f)])
        | None => Raise (OverflowError
                           (py "integer division result too large for a float"))
        end
    end.
Proof.
  intros H scores. unfold process_data.
  change (py_eq (VStr (py "average")) (VStr (py "count"))) with false.
  change (py_eq (VStr (py "average")) (VStr (py "average"))) with true.
  cbn [py_iter bind]. rewrite (scores_of_integer_scored articles H).
  fold scores. cbn [bind].
  destruct scores as [|n ns] eqn:E; [reflexivity|].
  cbn [truthy map]. unfold py_sum.
  change (VInt n :: map VInt ns) with (map VInt (n :: ns)).
  rewrite sum_from_integers. cbn [bind py_truediv as_num].
  rewrite Z.add_0_l, length_map.
  destruct (Z.of_nat (List.length (n :: ns)) =? 0) eqn:Ez.
  { apply Z.eqb_eq in Ez. cbn [List.length] in Ez. lia. }
  destruct (PyFloat.truediv_Z _ _); reflexivity.
Qed.

Lemma process_data_average_integers_witness :
  process_data
    (VList [ VDict [(py "score", VInt 10)];
             VDict [(py "title", VStr (py "Ask HN"))];
             VDict [(py "score", VInt 5)] ])
    (VStr (py "average"))
  = Return (VDict [(py "average_score", VFloat 7.5%float)]).
Proof.
  apply (process_data_average_integers
           [ VDict [(py "score", VInt 10)];
             VDict [(py "title", VStr (py "Ask HN"))];
             VDict [(py "score", VInt 5)] ]).
  reflexivity.
Defined.

(** The article [max] is at after the items, among articles of integer
    scores: an item takes the place of the best so far when its score is
    greater. *)
Lemma max_from_integer_scored (items : list value) :
  forallb integer_scored items = true ->
  forall best,
  exists best',
    max_from (fun x => py_get x (py "score") (VInt 0)) best
      (VInt (int_score_of best)) items = Return best' /\
    (forall a, In a items -> int_score_of a <= int_score_of best') /\
    int_score_of best <= int_score_of best' /\
    ((best' = best) \/
     (exists before after,
        items = before ++ best' :: after /\
        int_score_of best < int_score_of best' /\
        forall a, In a before -> int_score_of a < int_score_of best')).
Proof.
  induction items as [|x rest IH]; intros H best.
  - exists best. cbn [max_from]. repeat split; [intros a []|lia|left; reflexivity].
  - cbn [forallb] in H. apply andb_true_iff in H. destruct H as [Hx Hr].
    assert (Hkey : py_get x (py "score") (VInt 0) = Return (VInt (int_score_of x))).
    { destruct x as [| | | | | |d]; try discriminate Hx.
      cbn [integer_scored] in Hx. cbn [py_get int_score_of].
      destruct (Dict.lookup d (py "score")) as [[| |n| | | |]|];
        try discriminate Hx; reflexivity. }
    cbn [max_from]. rewrite Hkey. cbn [bind py_gt as_num].
    unfold num_gtb, num_compare.
    destruct (int_score_of x ?= int_score_of best) eqn:Ec.
    + apply Z.compare_eq in Ec.
      destruct (IH Hr best) as (b & Hb & Hall & Hle & Hpos). exists b.
      split; [exact Hb|]. split; [|split; [exact Hle|]].
      * intros a [<-|Ha]; [lia|apply Hall; exact Ha].
      * destruct Hpos as [->|(before & after & -> & Hlt & Hbefore)]; [left; reflexivity|].
        right. exists (x :: before), after. repeat split; [exact Hlt|].
        intros a [<-|Ha]; [lia|apply Hbefore; exact Ha].
    + rewrite Z.compare_lt_iff in Ec.
      destruct (IH Hr best) as (b & Hb & Hall & Hle & Hpos). exists b.
      split; [exact Hb|]. split; [|split; [exact Hle|]].
      * intros a [<-|Ha]; [lia|apply Hall; exact Ha].
      * destruct Hpos as [->|(before & after & -> & Hlt & Hbefore)]; [left; reflexivity|].
        right. exists (x :: before), after. repeat split; [exact Hlt|].
        intros a [<-|Ha]; [lia|apply Hbefore; exact Ha].
    + rewrite Z.compare_gt_iff in Ec.
      destruct (IH Hr x) as (b & Hb & Hall & Hle & Hpos). exists b.
      split; [exact Hb|]. split; [|split; [lia|]].
      * intros a [<-|Ha]; [exact Hle|apply Hall; exact Ha].
      * right. destruct Hpos as [->|(before & after & -> & Hlt & Hbefore)].
        -- exists [], rest. repeat split; [exact Ec|intros a []].
        -- exists (x :: before), after. repeat split; [lia|].
           intros a [<-|Ha]; [exact Hlt|apply Hbefore; exact Ha].
Qed.

(** X12.  The maximum over a non-empty list of articles whose scores are
    integers (no score counts as [0]): the article returned has the greatest
    score of all and is the first to have it; it is returned under
    ["max_score_article"], unless it is the empty dict, for which the result
    is the empty dict. *)
Theorem process_data_max_integers (articles : list value) :
  forallb integer_scored articles = true ->
  articles <> [] ->
  exists before best after,
    articles = before ++ best :: after /\
    (forall a, In a before -> int_score_of a < int_score_of best) /\
    (forall a, In a after -> int_score_of a <= int_score_of best) /\
    process_data (VList articles) (VStr (py "max"))
    = Return (if truthy best
              then VDict [(py "max_score_article", best)]
              else VDict []).
Proof.
  intros H Hne. destruct articles as [|x rest]; [contradiction|].
  cbn [forallb] in H. apply andb_true_iff in H. destruct H as [Hx Hr].
  assert (Hkey : py_get x (py "score") (VInt 0) = Return (VInt (int_score_of x))).
  { destruct x as [| | | | | |d]; try discriminate Hx.
    cbn [integer_scored] in Hx. cbn [py_get int_score_of].
    destruct (Dict.lookup d (py "score")) as [[| |n| | | |]|];
      try discriminate Hx; reflexivity. }
  destruct (max_from_integer_scored rest Hr x) as (b & Hb & Hall & Hle & Hpos).
  assert (Hrun : process_data (VList (x :: rest)) (VStr (py "max"))
                 = Return (if truthy b
                           then VDict [(py "max_score_article", b)]
                           else VDict [])).
  { unfold process_data.
    change (py_eq (VStr (py "max")) (VStr (py "count"))) with false.
    change (py_eq (VStr (py "max")) (VStr (py "average"))) with false.
    change (py_eq (VStr (py "max")) (VStr (py "max"))) with true.
    cbn [py_iter bind py_max]. rewrite Hkey. cbn [bind]. rewrite Hb. reflexivity. }
  destruct Hpos as [->|(before & after & -> & Hlt & Hbefore)].
  - exists [], x, rest. repeat split; [intros a []|exact Hall|exact Hrun].
  - exists (x :: before), b, after. repeat split.
    + intros a [<-|Ha]; [exact Hlt|apply Hbefore; exact Ha].
    + intros a Ha. apply Hall. apply in_or_app. right. right. exact Ha.
    + exact Hrun.
Qed.

Lemma process_data_max_integers_witness :
  exists before best after,
    [ VDict [(py "score", VInt 10)]; VDict [(py "score", VInt 30)];
      VDict []; VDict [(py "score", VInt 30); (py "title", VStr (py "later"))] ]
    = before ++ best :: after /\
    (forall a, In a before -> int_score_of a < int_score_of best) /\
    (forall a, In a after -> int_score_of a <= int_score_of best) /\
    process_data
      (VList [ VDict [(py "score", VInt 10)]; VDict [(py "score", VInt 30)];
               VDict []; VDict [(py "score", VInt 30); (py "title", VStr (py "later"))] ])
      (VStr (py "max"))
    = Return (if truthy best
              then VDict [(py "max_score_article", best)]
              else VDict []).
Proof.
  apply (@process_data_max_integers
           [ VDict [(py "score", VInt 10)]; VDict [(py "score", VInt 30)];
             VDict []; VDict [(py "score", VInt 30); (py "title", VStr (py "later"))] ]).
  - reflexivity.
  - discriminate.
Defined.

(** X13.  Data that has neither a length nor items ([None], a number, a
    boolean) is not reported as [{"error": ...}]: each of the three
    operations raises a [TypeError]. *)
Theorem process_data_scalar_raises (data : value) :
  scalar data = true ->
  process_data data (VStr (py "count"))
  = Raise (TypeError (py "object of type " ++ quoted (type_name data)
                        ++ py " has no len()")) /\
  process_data data (VStr (py "average"))
  = Raise (TypeError (quoted (type_name data) ++ py " object is not iterable")) /\
  process_data data (VStr (py "max"))
  = Raise (TypeError (quoted (type_name data) ++ py " object is not iterable")).
Proof.
  intros H. destruct data; try discriminate H; repeat split; reflexivity.
Qed.

Lemma process_data_scalar_raises_witness :
  process_data VNone (VStr (py "count"))
  = Raise (TypeError (py "object of type 'NoneType' has no len()")).
Proof.
  exact (proj1 (process_data_scalar_raises VNone eq_refl)).
Defined.

(* ================================================================== *)
(** * Further properties of the parser and of the decorator *)
(* ================================================================== *)

(** A pattern without [<] that is matched against a text followed by [<]
    matches within the text or not at all. *)
Lemma startswith_before_lt (q s x : pystr) :
  forallb (fun c => negb (c =c "<")) q = true ->
  startswith q (s ++ chr "<" :: x) = startswith q s.
Proof.
  revert s. induction q as [|b q IH]; intros s Hq; [destruct s; reflexivity|].
  cbn [forallb] in Hq. apply andb_true_iff in Hq. destruct Hq as [Hb Hq].
  apply negb_true_iff in Hb.
  destruct s as [|c s]; cbn [app startswith].
  - change (b =? chr "<")%N with (b =c "<"). rewrite Hb. reflexivity.
  - rewrite (IH s Hq). reflexivity.
Qed.

Lemma startswith_cons_before_lt (b c : char) (q s x : pystr) :
  forallb (fun c => negb (c =c "<")) q = true ->
  startswith (b :: q) ((c :: s) ++ chr "<" :: x) = startswith (b :: q) (c :: s).
Proof.
  intros Hq. cbn [app startswith]. rewrite (startswith_before_lt q s x Hq).
  reflexivity.
Qed.

(** No tag starts inside a text and ends inside a closing tag after it. *)
Lemma startswith_tag_before_close (tag s : pystr) (c : char) :
  tag = Re.open_tag \/ tag = Re.close_tag ->
  startswith tag ((c :: s) ++ Re.close_tag) = startswith tag (c :: s).
Proof.
  change Re.close_tag with (chr "<" :: py "/tool_call>").
  change Re.open_tag with (chr "<" :: py "tool_call>").
  intros [-> | ->]; apply startswith_cons_before_lt; reflexivity.
Qed.

Lemma sub_from_before_close (s : pystr) :
  PyStr.contains Re.open_tag s = false ->
  PyStr.contains Re.close_tag s = false ->
  Re.sub_from 0 (s ++ Re.close_tag) = s.
Proof.
  induction s as [|c s IH]; intros Ho Hc; [reflexivity|].
  apply contains_cons_false in Ho. destruct Ho as [Ho Ho'].
  apply contains_cons_false in Hc. destruct Hc as [Hc Hc'].
  change ((c :: s) ++ Re.close_tag) with (c :: (s ++ Re.close_tag)) at 1.
  cbn [Re.sub_from].
  change (c :: (s ++ Re.close_tag)) with ((c :: s) ++ Re.close_tag).
  rewrite !startswith_tag_before_close by auto.
  rewrite Ho, Hc. f_equal. apply IH; assumption.
Qed.

(** X14.  The tags are a frame and nothing more: a text without tags is
    parsed to the same value bare, between the two tags, after an opening tag
    alone and before a closing tag alone, namely to what decoding the text
    as JSON gives. *)
Theorem parse_tool_call_framed (s : pystr) :
  PyStr.contains Re.open_tag s = false ->
  PyStr.contains Re.close_tag s = false ->
  let decoded := match Json.loads s with Some v => v | None => VNone end in
  parse_tool_call (Re.open_tag ++ s ++ Re.close_tag) = decoded /\
  parse_tool_call (Re.open_tag ++ s) = decoded /\
  parse_tool_call (s ++ Re.close_tag) = decoded.
Proof.
  intros Ho Hc decoded. unfold parse_tool_call, Re.sub_tool_call.
  assert (Hopen : forall r, Re.sub_from 0 (Re.open_tag ++ r) = Re.sub_from 0 r)
    by (intros r; reflexivity).
  rewrite !Hopen, (sub_from_before_close s Ho Hc).
  fold (Re.sub_tool_call s). rewrite (sub_tool_call_untagged s Ho Hc).
  repeat split.
Qed.

Lemma parse_tool_call_framed_witness :
  parse_tool_call (Re.open_tag ++ untagged_call ++ Re.close_tag)
  = VDict [ (py "name", VStr (py "add"));
            (py "arguments", VDict [(py "num1", VInt 5); (py "num2", VInt 3)]) ].
Proof.
  refine (eq_trans (proj1 (@parse_tool_call_framed untagged_call _ _)) _);
    vm_compute; reflexivity.
Defined.

(** X15.  The decorator attaches the definition and changes nothing else:
    the function carries a [tool_definition] made of its name, its docstring
    ([None] without one) and its declared [parameters] and [returns] (empty
    dicts when undeclared); its name and docstring are as before, and so is
    every other attribute. *)
Theorem tool_attaches_definition_only (func : pyfunc) :
  getattr_strict (tool func) (py "tool_definition")
    = Return (tool_definition_of func) /\
  decorated (tool func) = true /\
  __name__ (tool func) = __name__ func /\
  __doc__ (tool func) = __doc__ func /\
  (forall name, name <> py "tool_definition" ->
     Dict.lookup (__dict__ (tool func)) name = Dict.lookup (__dict__ func) name).
Proof.
  split; [apply getattr_strict_decorated|].
  split.
  { unfold decorated, Dict.mem, tool, setattr. simpl __dict__.
    rewrite lookup_set_same. reflexivity. }
  split; [reflexivity|]. split; [reflexivity|].
  intros name Hn. unfold tool, setattr. simpl __dict__.
  apply lookup_set_other. congruence.
Qed.

Lemma tool_attaches_definition_only_witness :
  Dict.lookup (__dict__ (tool (setattr noop (py "parameters") (VDict [(py "n", VStr (py "int"))]))))
    (py "parameters")
  = Some (VDict [(py "n", VStr (py "int"))]).
Proof.
  refine (eq_trans
    (proj2 (proj2 (proj2 (proj2
       (tool_attaches_definition_only
          (setattr noop (py "parameters") (VDict [(py "n", VStr (py "int"))]))))))
       (py "parameters") _) _).
  - intro H. vm_compute in H. discriminate H.
  - reflexivity.
Defined.

(* ================================================================== *)
(** * Properties of the tools that fetch from the network *)
(* ================================================================== *)

Lemma hits_with_url_stories (items found : list value) :
  hits_with_url items = Return found -> Forall is_story found.
Proof.
  revert found. induction items as [|item rest IH]; intros found H.
  - inversion H. constructor.
  - cbn [hits_with_url] in H.
    destruct item as [| | | | | |h]; try discriminate H.
    cbn [py_get bind] in H.
    destruct (truthy (match Dict.lookup h (py "url") with
                      | Some x => x | None => VNone end)) eqn:Hu.
    + cbn [py_getitem] in H.
      destruct (Dict.lookup h (py "title")) as [title|]; [|discriminate H].
      destruct (Dict.lookup h (py "url")) as [url|]; [|discriminate H].
      destruct (Dict.lookup h (py "points")) as [points|]; [|discriminate H].
      cbn [bind] in H.
      destruct (hits_with_url rest) as [others|e]; [|discriminate H].
      inversion H; subst. constructor; [|apply IH; reflexivity].
      exists title, url, points. split; [reflexivity|exact Hu].
    + apply IH. exact H.
Qed.

(** X16.  [search_hackernews] never raises, whatever the network does and
    whatever [limit] is: it returns a list, which is either the single item
    [{"error": "Failed to fetch articles: ..."}] or a list of articles, each
    with exactly the keys [title], [url], [score] and a truthy [url]. *)
Theorem search_hackernews_total (requests_get : Requests) (query : pystr)
    (limit : value) :
  exists items,
    search_hackernews requests_get query limit = Return (VList items) /\
    ((exists e, VList items = search_error e) \/ Forall is_story items).
Proof.
  unfold search_hackernews.
  destruct (requests_get (hackernews_url query)) as [response|e];
    [|eexists; split; [reflexivity|left; eexists; reflexivity]].
  cbn [bind].
  destruct (raise_for_status response) as [[]|e];
    [|eexists; split; [reflexivity|left; eexists; reflexivity]].
  cbn [bind].
  destruct (json response) as [body|e];
    [|eexists; split; [reflexivity|left; eexists; reflexivity]].
  cbn [bind].
  destruct (py_getitem body (py "hits")) as [hits|e];
    [|eexists; split; [reflexivity|left; eexists; reflexivity]].
  cbn [bind].
  destruct (py_slice_to hits limit) as [results|e];
    [|eexists; split; [reflexivity|left; eexists; reflexivity]].
  cbn [bind].
  destruct (py_iter results) as [items|e];
    [|eexists; split; [reflexivity|left; eexists; reflexivity]].
  cbn [bind].
  destruct (hits_with_url items) as [found|e] eqn:E;
    [|eexists; split; [reflexivity|left; eexists; reflexivity]].
  exists found. split; [reflexivity|]. right.
  exact (hits_with_url_stories items E).
Qed.

(** X17.  A request that fails, a response with an error status and a body
    that is not JSON all end the same way: the list returned holds one item,
    the error message of the failure after ["Failed to fetch articles: "]. *)
Theorem search_hackernews_failure (requests_get : Requests) (query : pystr)
    (limit : value) (e : exn) :
  requests_get (hackernews_url query) = Raise e \/
  (exists response,
     requests_get (hackernews_url query) = Return response /\
     (raise_for_status response = Raise e \/
      (raise_for_status response = Return tt /\ json response = Raise e))) ->
  search_hackernews requests_get query limit = Return (search_error e).
Proof.
  unfold search_hackernews.
  intros [H|(response & H & [Hs|[Hs Hj]])]; rewrite H; cbn [bind]; try rewrite Hs;
    cbn [bind]; try rewrite Hj; reflexivity.
Qed.

Lemma search_hackernews_failure_witness :
  search_hackernews unreachable (py "Anthropic") (VInt 5)
  = Return (VList [VDict [(py "error",
              VStr (py "Failed to fetch articles: Max retries exceeded"))]]) /\
  search_hackernews refusing (py "Anthropic") (VInt 5)
  = Return (VList [VDict [(py "error",
              VStr (py "Failed to fetch articles: 404 Client Error: Not Found for url: http://hn.algolia.com/api/v1/search?query=Anthropic&numericFilters=points>10"))]]).
Proof.
  split.
  - apply (@search_hackernews_failure unreachable (py "Anthropic") (VInt 5)
             (Exn (py "ConnectionError") (py "Max retries exceeded"))).
    left. reflexivity.
  - apply (@search_hackernews_failure refusing (py "Anthropic") (VInt 5)
             (Exn (py "HTTPError")
                (py "404 Client Error: Not Found for url: "
                   ++ hackernews_url (py "Anthropic")))).
    right. eexists. split; [reflexivity|]. left. reflexivity.
Defined.

Lemma hits_with_url_complete (items : list value) :
  forallb complete_hit items = true ->
  hits_with_url items = Return (map story_of (filter has_url items)).
Proof.
  induction items as [|item rest IH]; intros H; [reflexivity|].
  cbn [forallb] in H. apply andb_true_iff in H. destruct H as [Hi Hr].
  specialize (IH Hr).
  destruct item as [| | | | | |h]; try discriminate Hi.
  cbn [complete_hit] in Hi. cbn [hits_with_url py_get bind filter has_url].
  unfold dict_get in *.
  destruct (truthy (match Dict.lookup h (py "url") with
                    | Some v => v | None => VNone end)) eqn:Hu.
  - cbn [negb orb] in Hi. apply andb_true_iff in Hi. destruct Hi as [Ht Hp].
    unfold Dict.mem in Ht, Hp. cbn [py_getitem map story_of]. unfold dict_get.
    destruct (Dict.lookup h (py "title")) as [title|]; [|discriminate Ht].
    destruct (Dict.lookup h (py "url")) as [url|]; [|discriminate Hu].
    destruct (Dict.lookup h (py "points")) as [points|]; [|discriminate Hp].
    cbn [bind]. rewrite IH. reflexivity.
  - exact IH.
Qed.

(** X18.  A search that succeeds: of the hits of the response the first
    [limit] are looked at; those with a truthy [url] become articles, in the
    order of the hits, with the hit's [points] under [score]; the others are
    dropped.  At most [limit] articles are returned. *)
Theorem search_hackernews_stories (requests_get : Requests) (query : pystr)
    (limit : Z) (response : Response) (body : dict) (hits : list value) :
  requests_get (hackernews_url query) = Return response ->
  raise_for_status response = Return tt ->
  json response = Return (VDict body) ->
  Dict.lookup body (py "hits") = Some (VList hits) ->
  0 <= limit ->
  forallb complete_hit (firstn (Z.to_nat limit) hits) = true ->
  let stories := map story_of (filter has_url (firstn (Z.to_nat limit) hits)) in
  search_hackernews requests_get query (VInt limit) = Return (VList stories) /\
  Z.of_nat (List.length stories) <= limit.
Proof.
  intros Hr Hs Hj Hh Hl Hc stories. split.
  - unfold search_hackernews. rewrite Hr. cbn [bind]. rewrite Hs. cbn [bind].
    rewrite Hj. cbn [bind py_getitem]. rewrite Hh.
    cbn [bind py_slice_to slice_stop py_iter]. unfold take.
    apply Z.leb_le in Hl. rewrite Hl.
    rewrite (hits_with_url_complete _ Hc). reflexivity.
  - subst stories. rewrite length_map.
    pose proof (filter_length_le has_url (firstn (Z.to_nat limit) hits)) as H1.
    pose proof (firstn_le_length (Z.to_nat limit) hits) as H2.
    lia.
Qed.

Lemma search_hackernews_stories_witness :
  search_hackernews (serving (VDict [(py "hits", VList sample_hits)]))
    (py "Anthropic") (VInt 2)
  = Return (VList [ VDict [ (py "title", VStr (py "Claude"));
                            (py "url", VStr (py "https://a.example"));
                            (py "score", VInt 120) ] ]).
Proof.
  refine (proj1 (@search_hackernews_stories
    (serving (VDict [(py "hits", VList sample_hits)])) (py "Anthropic") 2
    {| raise_for_status := Return tt;
       json := Return (VDict [(py "hits", VList sample_hits)]) |}
    [(py "hits", VList sample_hits)] sample_hits _ _ _ _ _ _)).
  - reflexivity.
  - reflexivity.
  - reflexivity.
  - reflexivity.
  - lia.
  - reflexivity.
Defined.

Lemma hits_with_url_incomplete (before after : list value) (h : dict) :
  forallb complete_hit before = true ->
  truthy (dict_get h (py "url") VNone) = true ->
  Dict.lookup h (py "title") = None ->
  hits_with_url (before ++ VDict h :: after) = Raise (KeyError (py "'title'")).
Proof.
  intros Hb Hu Ht. induction before as [|item rest IH].
  - cbn [app hits_with_url py_get bind]. unfold dict_get in Hu. rewrite Hu.
    cbn [py_getitem]. rewrite Ht. reflexivity.
  - cbn [forallb] in Hb. apply andb_true_iff in Hb. destruct Hb as [Hi Hr].
    specialize (IH Hr).
    destruct item as [| | | | | |g]; try discriminate Hi.
    cbn [complete_hit] in Hi. cbn [app hits_with_url py_get bind].
    unfold dict_get in Hi.
    destruct (truthy (match Dict.lookup g (py "url") with
                      | Some v => v | None => VNone end)) eqn:Hg.
    + cbn [negb orb] in Hi. apply andb_true_iff in Hi. destruct Hi as [Hti Hp].
      unfold Dict.mem in Hti, Hp. cbn [py_getitem].
      destruct (Dict.lookup g (py "title")) as [title|]; [|discriminate Hti].
      destruct (Dict.lookup g (py "url")) as [url|]; [|discriminate Hg].
      destruct (Dict.lookup g (py "points")) as [points|]; [|discriminate Hp].
      cbn [bind]. rewrite IH. reflexivity.
    + exact IH.
Qed.

(** X19.  All or nothing: one hit among the first [limit] that has an
    address but no title spoils the search; the articles made of the hits
    before it are discarded and the one item returned is the error
    ["Failed to fetch articles: 'title'"]. *)
Theorem search_hackernews_incomplete_hit (requests_get : Requests) (query : pystr)
    (limit : Z) (response : Response) (body : dict) (hits before after : list value)
    (h : dict) :
  requests_get (hackernews_url query) = Return response ->
  raise_for_status response = Return tt ->
  json response = Return (VDict body) ->
  Dict.lookup body (py "hits") = Some (VList hits) ->
  0 <= limit ->
  firstn (Z.to_nat limit) hits = before ++ VDict h :: after ->
  forallb complete_hit before = true ->
  truthy (dict_get h (py "url") VNone) = true ->
  Dict.lookup h (py "title") = None ->
  search_hackernews requests_get query (VInt limit)
  = Return (VList [VDict [(py "error",
              VStr (py "Failed to fetch articles: 'title'"))]]).
Proof.
  intros Hr Hs Hj Hh Hl Hf Hb Hu Ht.
  unfold search_hackernews. rewrite Hr. cbn [bind]. rewrite Hs. cbn [bind].
  rewrite Hj. cbn [bind py_getitem]. rewrite Hh.
  cbn [bind py_slice_to slice_stop py_iter]. unfold take.
  apply Z.leb_le in Hl. rewrite Hl, Hf.
  rewrite (hits_with_url_incomplete before after h Hb Hu Ht). reflexivity.
Qed.

Lemma search_hackernews_incomplete_hit_witness :
  search_hackernews
    (serving (VDict [(py "hits",
       VList (sample_hits ++ [VDict [(py "url", VStr (py "https://c.example"))]]))]))
    (py "Anthropic") (VInt 5)
  = Return (VList [VDict [(py "error",
              VStr (py "Failed to fetch articles: 'title'"))]]).
Proof.
  refine (@search_hackernews_incomplete_hit
    (serving (VDict [(py "hits",
       VList (sample_hits ++ [VDict [(py "url", VStr (py "https://c.example"))]]))]))
    (py "Anthropic") 5
    {| raise_for_status := Return tt;
       json := Return (VDict [(py "hits",
         VList (sample_hits ++ [VDict [(py "url", VStr (py "https://c.example"))]]))]) |}
    [(py "hits",
      VList (sample_hits ++ [VDict [(py "url", VStr (py "https://c.example"))]]))]
    (sample_hits ++ [VDict [(py "url", VStr (py "https://c.example"))]])
    sample_hits [] [(py "url", VStr (py "https://c.example"))] _ _ _ _ _ _ _ _ _).
  - reflexivity.
  - reflexivity.
  - reflexivity.
  - reflexivity.
  - lia.
  - reflexivity.
  - reflexivity.
  - reflexivity.
  - reflexivity.
Defined.

(** X20.  [fetch_weather] never raises, whatever the environment and the
    network are: it returns a dict, either [{"error": "Failed to fetch
    weather data: ..."}] or a report with the keys [city], [temperature],
    [weather], [humidity] and [wind_speed], in this order. *)
Theorem fetch_weather_total (getenv : pystr -> option pystr)
    (requests_get : Requests) (city units : pystr) :
  exists report,
    fetch_weather getenv requests_get city units = Return (VDict report) /\
    ((exists e, VDict report = weather_error e) \/
     map fst report = [ py "city"; py "temperature"; py "weather";
                        py "humidity"; py "wind_speed" ]).
Proof.
  unfold fetch_weather.
  repeat match goal with
         | |- exists report, try_except (bind ?m _) _ = _ /\ _ =>
             destruct m;
             [cbn [bind]|eexists; split; [reflexivity|left; eexists; reflexivity]]
         end.
  eexists. split; [reflexivity|]. right. reflexivity.
Qed.

(** X21.  A report of the service is read as follows: the city is its
    [name], temperature and humidity come from [main], the description from
    the first entry of [weather], the wind speed from [wind]; a field that is
    absent from these gives [None] in the report. *)
Theorem fetch_weather_report (getenv : pystr -> option pystr)
    (requests_get : Requests) (city units : pystr) (response : Response)
    (data main first wind : dict) (others : list value) :
  requests_get (weather_url city units (getenv (py "WEATHER_API_KEY")))
    = Return response ->
  raise_for_status response = Return tt ->
  json response = Return (VDict data) ->
  Dict.lookup data (py "main") = Some (VDict main) ->
  Dict.lookup data (py "weather") = Some (VList (VDict first :: others)) ->
  Dict.lookup data (py "wind") = Some (VDict wind) ->
  fetch_weather getenv requests_get city units
  = Return (VDict [ (py "city", dict_get data (py "name") VNone);
                    (py "temperature", dict_get main (py "temp") VNone);
                    (py "weather", dict_get first (py "description") VNone);
                    (py "humidity", dict_get main (py "humidity") VNone);
                    (py "wind_speed", dict_get wind (py "speed") VNone) ]).
Proof.
  intros Hr Hs Hj Hm Hw Hwd. unfold fetch_weather. rewrite Hr. cbn [bind].
  rewrite Hs. cbn [bind]. rewrite Hj. cbn [bind py_get py_getitem].
  rewrite Hm. cbn [bind py_get]. rewrite Hw. cbn [bind py_getitem_index].
  change (0 <? 0) with false. cbn [Z.to_nat nth_error bind py_get].
  rewrite Hwd. reflexivity.
Qed.

Lemma fetch_weather_report_witness :
  fetch_weather (fun _ => None) (serving (VDict sample_weather))
    (py "Arlington") (py "metric")
  = Return (VDict [ (py "city", VStr (py "Arlington"));
                    (py "temperature", VInt 21);
                    (py "weather", VStr (py "clear sky"));
                    (py "humidity", VNone);
                    (py "wind_speed", VInt 3) ]).
Proof.
  refine (@fetch_weather_report (fun _ => None) (serving (VDict sample_weather))
    (py "Arlington") (py "metric")
    {| raise_for_status := Return tt; json := Return (VDict sample_weather) |}
    sample_weather [(py "temp", VInt 21)]
    [(py "description", VStr (py "clear sky"))] [(py "speed", VInt 3)] []
    _ _ _ _ _ _); reflexivity.
Defined.

(** X22.  A failure of the request, an error status, a body that is not
    JSON, a report without [main] and a report whose [weather] list is empty
    all give the error dict, with the message of the failure. *)
Theorem fetch_weather_failure (getenv : pystr -> option pystr)
    (requests_get : Requests) (city units : pystr) (e : exn) :
  let url := weather_url city units (getenv (py "WEATHER_API_KEY")) in
  requests_get url = Raise e \/
  (exists response,
     requests_get url = Return response /\
     (raise_for_status response = Raise e \/
      (raise_for_status response = Return tt /\
       (json response = Raise e \/
        exists data,
          json response = Return (VDict data) /\
          ((Dict.lookup data (py "main") = None /\ e = KeyError (py "'main'")) \/
           (exists main,
              Dict.lookup data (py "main") = Some (VDict main) /\
              Dict.lookup data (py "weather") = Some (VList []) /\
              e = IndexError (py "list index out of range"))))))) ->
  fetch_weather getenv requests_get city units = Return (weather_error e).
Proof.
  intros url. unfold fetch_weather. fold url.
  intros [H|(response & H & [Hs|[Hs [Hj|(data & Hj & [[Hm ->]|(main & Hm & Hw & ->)])]]])];
    rewrite H; cbn [bind]; try rewrite Hs; cbn [bind]; try rewrite Hj;
    cbn [bind py_get py_getitem]; try rewrite Hm; cbn [bind py_get];
    try rewrite Hw; reflexivity.
Qed.

Lemma fetch_weather_failure_witness :
  fetch_weather (fun _ => None) unreachable (py "Arlington") (py "metric")
  = Return (VDict [(py "error",
              VStr (py "Failed to fetch weather data: Max retries exceeded"))]) /\
  fetch_weather (fun _ => None)
    (serving (VDict [(py "cod", VStr (py "404")); (py "message", VStr (py "city not found"))]))
    (py "Atlantis") (py "metric")
  = Return (VDict [(py "error", VStr (py "Failed to fetch weather data: 'main'"))]).
Proof.
  split.
  - apply (@fetch_weather_failure (fun _ => None) unreachable (py "Arlington")
             (py "metric") (Exn (py "ConnectionError") (py "Max retries exceeded"))).
    left. reflexivity.
  - apply (@fetch_weather_failure (fun _ => None)
             (serving (VDict [(py "cod", VStr (py "404"));
                              (py "message", VStr (py "city not found"))]))
             (py "Atlantis") (py "metric") (KeyError (py "'main'"))).
    right. eexists. split; [reflexivity|]. right. split; [reflexivity|].
    right. eexists. split; [reflexivity|]. left. split; reflexivity.
Defined.

(* ================================================================== *)
(** * The error answer of [run] is a JSON document *)
(* ================================================================== *)

Lemma hex_digit_hex_char (n : N) :
  (n < 16)%N -> Json.hex_digit (Json.hex_char n) = Some n.
Proof.
  intros Hn. unfold Json.hex_digit, Json.hex_char, Json.is_digit.
  destruct (n <? 10)%N eqn:E.
  - apply N.ltb_lt in E.
    replace ((48 <=? 48 + n)%N) with true by (symmetry; apply N.leb_le; lia).
    replace ((48 + n <=? 57)%N) with true by (symmetry; apply N.leb_le; lia).
    cbn [andb]. f_equal. lia.
  - apply N.ltb_ge in E.
    replace ((87 + n <=? 57)%N) with false by (symmetry; apply N.leb_gt; lia).
    rewrite andb_false_r.
    replace ((97 <=? 87 + n)%N) with true by (symmetry; apply N.leb_le; lia).
    replace ((87 + n <=? 102)%N) with true by (symmetry; apply N.leb_le; lia).
    cbn [andb]. f_equal. lia.
Qed.

(** A number below [16^4] is the value of its four hexadecimal digits. *)
Lemma base16_digits (u : N) :
  (u < 65536)%N ->
  ((((u / 4096 mod 16) * 16 + u / 256 mod 16) * 16 + u / 16 mod 16) * 16
   + u mod 16 = u)%N.
Proof.
  intros Hu.
  replace (u / 4096)%N with (u / 16 / 16 / 16)%N
    by (rewrite !N.Div0.div_div; reflexivity).
  replace (u / 256)%N with (u / 16 / 16)%N
    by (rewrite !N.Div0.div_div; reflexivity).
  pose proof (N.div_mod u 16 ltac:(discriminate)) as H1.
  pose proof (N.div_mod (u / 16) 16 ltac:(discriminate)) as H2.
  pose proof (N.div_mod (u / 16 / 16) 16 ltac:(discriminate)) as H3.
  pose proof (N.div_mod (u / 16 / 16 / 16) 16 ltac:(discriminate)) as H4.
  pose proof (N.mod_lt u 16 ltac:(discriminate)).
  pose proof (N.mod_lt (u / 16) 16 ltac:(discriminate)).
  pose proof (N.mod_lt (u / 16 / 16) 16 ltac:(discriminate)).
  pose proof (N.mod_lt (u / 16 / 16 / 16) 16 ltac:(discriminate)).
  generalize dependent (u mod 16)%N.
  generalize dependent ((u / 16) mod 16)%N.
  generalize dependent ((u / 16 / 16) mod 16)%N.
  generalize dependent ((u / 16 / 16 / 16) mod 16)%N.
  generalize dependent (u / 16 / 16 / 16 / 16)%N.
  generalize dependent (u / 16 / 16 / 16)%N.
  generalize dependent (u / 16 / 16)%N.
  generalize dependent (u / 16)%N.
  intros. lia.
Qed.

(** The two halves of a code point beyond the basic plane are surrogates
    and join to the code point. *)
Lemma surrogate_halves (c : N) :
  (65536 <= c < 1114112)%N ->
  (55296 <= 55296 + (c - 65536) / 1024 <= 56319)%N /\
  (56320 <= 56320 + (c - 65536) mod 1024 <= 57343)%N /\
  Json.join_surrogates (55296 + (c - 65536) / 1024) (56320 + (c - 65536) mod 1024) = c.
Proof.
  intros Hc. unfold Json.join_surrogates.
  pose proof (N.div_mod (c - 65536) 1024 ltac:(discriminate)).
  pose proof (N.mod_lt (c - 65536) 1024 ltac:(discriminate)).
  generalize dependent ((c - 65536) mod 1024)%N.
  generalize dependent ((c - 65536) / 1024)%N.
  intros. lia.
Qed.

(** The four digits [u_escape] writes read back as the code unit. *)
Lemma hex4_u_escape (u : N) :
  (u < 65536)%N ->
  Json.hex4 (Json.hex_char (u / 4096 mod 16)) (Json.hex_char (u / 256 mod 16))
            (Json.hex_char (u / 16 mod 16)) (Json.hex_char (u mod 16)) = Some u.
Proof.
  intros Hu. unfold Json.hex4.
  rewrite !hex_digit_hex_char by (apply N.mod_lt; discriminate).
  f_equal. apply base16_digits. exact Hu.
Qed.

(** One character, escaped by the encoder, is read back by the decoder. *)
Lemma scanstring_escape_char (c : char) (tail acc : pystr) :
  (c <? 1114112)%N && negb ((55296 <=? c)%N && (c <=? 57343)%N) = true ->
  Json.scanstring (Json.escape_char c ++ tail) acc = Json.scanstring tail (c :: acc).
Proof.
  intros Hc. apply andb_true_iff in Hc. destruct Hc as [Hmax Hsur].
  apply N.ltb_lt in Hmax. apply negb_true_iff in Hsur.
  unfold Json.escape_char.
  destruct (c =? dquote)%N eqn:E1; [apply N.eqb_eq in E1; subst c; reflexivity|].
  destruct (c =c "\") eqn:E2; [apply N.eqb_eq in E2; subst c; reflexivity|].
  destruct (c =? 10)%N eqn:E3; [apply N.eqb_eq in E3; subst c; reflexivity|].
  destruct (c =? 13)%N eqn:E4; [apply N.eqb_eq in E4; subst c; reflexivity|].
  destruct (c =? 9)%N eqn:E5; [apply N.eqb_eq in E5; subst c; reflexivity|].
  destruct (c =? 8)%N eqn:E6; [apply N.eqb_eq in E6; subst c; reflexivity|].
  destruct (c =? 12)%N eqn:E7; [apply N.eqb_eq in E7; subst c; reflexivity|].
  destruct ((32 <=? c)%N && (c <=? 126)%N) eqn:E8.
  - apply andb_true_iff in E8. destruct E8 as [Hlo Hhi]. apply N.leb_le in Hlo.
    cbn [app Json.scanstring]. rewrite E1, E2.
    replace ((c <=? 31)%N) with false by (symmetry; apply N.leb_gt; lia).
    reflexivity.
  - destruct (c <? 65536)%N eqn:E9.
    + apply N.ltb_lt in E9. unfold Json.u_escape.
      cbn [app Json.scanstring].
      change (chr "\" =? dquote)%N with false.
      change (chr "\" =c "\") with true.
      change (chr "u" =c "u") with true.
      cbv iota. rewrite (hex4_u_escape E9).
      unfold Json.is_high_surrogate.
      assert (Hh : ((55296 <=? c)%N && (c <=? 56319)%N) = false).
      { apply andb_false_iff in Hsur. apply andb_false_iff.
        destruct Hsur as [H|H]; [left; exact H|].
        right. apply N.leb_gt in H. apply N.leb_gt. lia. }
      rewrite Hh. reflexivity.
    + apply N.ltb_ge in E9.
      set (hi := (55296 + (c - 65536) / 1024)%N).
      set (lo := (56320 + (c - 65536) mod 1024)%N).
      destruct (@surrogate_halves c ltac:(lia)) as (Hhi & Hlo & Hjoin).
      fold hi lo in Hhi, Hlo, Hjoin.
      unfold Json.u_escape. cbn [app Json.scanstring].
      change (chr "\" =? dquote)%N with false.
      change (chr "\" =c "\") with true.
      change (chr "u" =c "u") with true.
      cbv iota. rewrite (@hex4_u_escape hi) by lia.
      unfold Json.is_high_surrogate.
      replace ((55296 <=? hi)%N) with true by (symmetry; apply N.leb_le; lia).
      replace ((hi <=? 56319)%N) with true by (symmetry; apply N.leb_le; lia).
      cbn [andb]. rewrite (@hex4_u_escape lo) by lia.
      unfold Json.is_low_surrogate.
      replace ((56320 <=? lo)%N) with true by (symmetry; apply N.leb_le; lia).
      replace ((lo <=? 57343)%N) with true by (symmetry; apply N.leb_le; lia).
      cbn [andb]. rewrite Hjoin. reflexivity.
Qed.

(** A string written by the encoder is read back by the decoder, up to the
    closing quote. *)
Lemma scanstring_encode (s rest acc : pystr) :
  scalar_text s = true ->
  Json.scanstring (flat_map Json.escape_char s ++ dquote :: rest) acc
  = Some (rev acc ++ s, rest).
Proof.
  revert acc. induction s as [|c s IH]; intros acc Hs.
  - cbn [flat_map app Json.scanstring]. rewrite N.eqb_refl, app_nil_r. reflexivity.
  - cbn [scalar_text forallb] in Hs. apply andb_true_iff in Hs.
    destruct Hs as [Hc Hs].
    cbn [flat_map]. rewrite <- app_assoc.
    rewrite (scanstring_escape_char c _ acc Hc), (IH (c :: acc) Hs).
    cbn [rev]. rewrite <- app_assoc. reflexivity.
Qed.

(** A string term. *)
Lemma scan_once_string (fuel : nat) (r str rest : pystr) :
  Json.scanstring r [] = Some (str, rest) ->
  Json.scan_once (S fuel) (dquote :: r) = Json.Scanned (VStr str) rest.
Proof.
  intros H. cbn [Json.scan_once]. rewrite N.eqb_refl, H. reflexivity.
Qed.

(** An object of one pair. *)
Lemma JSONObject_one_pair (scan_term : pystr -> Json.scan value) (n : nat)
    (r key r1 r2 r3 r4 : pystr) (v : value) :
  Json.scanstring r [] = Some (key, r1) ->
  Json.skip_ws r1 = chr ":" :: r2 ->
  scan_term (Json.skip_ws r2) = Json.Scanned v r3 ->
  Json.skip_ws r3 = chr "}" :: r4 ->
  Json.JSONObject scan_term (S n) (dquote :: r) [] = Json.Scanned [(key, v)] r4.
Proof.
  intros Hk Hc Hv He. cbn [Json.JSONObject].
  rewrite N.eqb_refl, Hk, Hc.
  change (chr ":" =c ":") with true. cbv iota.
  rewrite Hv, He.
  change (chr "}" =c "}") with true. reflexivity.
Qed.

(** An object term that is not empty. *)
Lemma scan_once_object (fuel : nat) (r r' rest : pystr) (c' : char) (d : dict) :
  Json.skip_ws r = c' :: r' ->
  (c' =c "}") = false ->
  Json.JSONObject (Json.scan_once fuel) (S (List.length r)) (c' :: r') []
    = Json.Scanned d rest ->
  Json.scan_once (S fuel) (chr "{" :: r) = Json.Scanned (VDict d) rest.
Proof.
  intros Hw Hc Ho. cbn [Json.scan_once].
  change (chr "{" =? dquote)%N with false.
  change (chr "{" =c "{") with true. cbv iota.
  rewrite Hw, Hc, Ho. reflexivity.
Qed.

(** X23.  The text [run] returns for an exception is a JSON document:
    decoded, it is the dict with the one key ["error"] and the message of the
    exception, for every message of Unicode scalar values, quotes,
    backslashes, control characters and non-ASCII characters included. *)
Theorem error_answer_decodes (msg : pystr) :
  scalar_text msg = true ->
  Json.loads (Json.dumps (VDict [(py "error", VStr msg)]))
  = Some (VDict [(py "error", VStr msg)]).
Proof.
  intros Hm.
  assert (E : Json.dumps (VDict [(py "error", VStr msg)])
              = chr "{" :: dquote :: py "error" ++ dquote :: py ": "
                  ++ dquote :: flat_map Json.escape_char msg ++ dquote :: [chr "}"]).
  { cbn [Json.dumps map join Json.encode_string].
    change (flat_map Json.escape_char (py "error")) with (py "error").
    unfold Json.encode_string. f_equal.
    repeat (rewrite <- app_assoc || rewrite <- app_comm_cons).
    reflexivity. }
  rewrite E. clear E.
  pose proof (scanstring_encode msg [chr "}"] [] Hm) as Hs. cbn [rev app] in Hs.
  set (body := flat_map Json.escape_char msg ++ [dquote; chr "}"]) in *.
  clearbody body.
  set (r := dquote :: py "error" ++ dquote :: py ": " ++ dquote :: body).
  assert (Hscan : Json.scan_once (S (List.length (chr "{" :: r))) (chr "{" :: r)
                  = Json.Scanned (VDict [(py "error", VStr msg)]) []).
  { apply (@scan_once_object _ r (py "error" ++ dquote :: py ": " ++ dquote :: body)
             [] dquote); [reflexivity|reflexivity|].
    apply (@JSONObject_one_pair _ _ _ (py "error")
             (py ": " ++ dquote :: body) (chr " " :: dquote :: body)
             [chr "}"] [] (VStr msg)); [reflexivity|reflexivity| |reflexivity].
    change (Json.skip_ws (chr " " :: dquote :: body)) with (dquote :: body).
    cbn [List.length]. apply scan_once_string. exact Hs. }
  unfold Json.loads.
  change (startswith [65279%N] (chr "{" :: r)) with false. cbv iota.
  change (Json.skip_ws (chr "{" :: r)) with (chr "{" :: r).
  cbv zeta. rewrite Hscan. reflexivity.
Qed.

Lemma error_answer_decodes_witness :
  Json.loads (Json.dumps (VDict [(py "error",
     VStr (pyq "can only concatenate str (not `int`) to str"))]))
  = Some (VDict [(py "error",
     VStr (pyq "can only concatenate str (not `int`) to str"))]).
Proof.
  apply (@error_answer_decodes (pyq "can only concatenate str (not `int`) to str")).
  reflexivity.
Defined.

(* ================================================================== *)
(** * The decorator on any callable *)
(* ================================================================== *)

(** On a function object of the agent the decorator of callables does what
    [tool] does. *)
Lemma tool_on_function (func : pyfunc) :
  Callable.tool (callable_of func) = Return (callable_of (tool func)).
Proof. reflexivity. Qed.

(** Without a [__name__], or on an object that takes no attributes, the
    decorator raises [AttributeError] and nothing is registered. *)
Lemma tool_raises_without_name_or_attributes (func : Callable.t) :
  Callable.__name__ func = None \/ Callable.__dict__ func = None ->
  exists msg, Callable.tool func = Raise (AttributeError msg).
Proof.
  unfold Callable.tool, Callable.get_name, Callable.setattr, Callable.no_attribute.
  intros [H|H].
  - rewrite H. eexists. reflexivity.
  - rewrite H. destruct (Callable.__name__ func); eexists; reflexivity.
Qed.

Example tool_rejects_len_and_partial :
  Callable.tool builtin_len
  = Raise (AttributeError
             (py "'builtin_function_or_method' object has no attribute 'tool_definition'"))
  /\ Callable.tool count_partial
     = Raise (AttributeError
                (py "'functools.partial' object has no attribute '__name__'")).
Proof. split; reflexivity. Qed.

(** What [is_tool] returns before and after it is registered. *)
Example is_tool_before_and_after :
  Callable.call is_tool [] = Return (VBool false)
  /\ (g <- Callable.tool is_tool ;; Callable.call g []) = Return (VBool true).
Proof. split; reflexivity. Qed.

(** C7 as stated does not hold of every callable.  The decorator sets an
    attribute on its operand and returns the operand: [is_tool], which reads
    that attribute, is registered well and twice as once, but returns [True]
    where the undecorated function returned [False]. *)
Lemma tool_changes_what_is_tool_returns :
  ~ (forall func : Callable.t,
       exists g : Callable.t,
         Callable.tool func = Return g /\
         (exists g' : Callable.t,
            Callable.tool g = Return g' /\
            Callable.tool_definition g' = Callable.tool_definition g) /\
         (forall kwargs, Callable.call g kwargs = Callable.call func kwargs)).
Proof.
  intros H. destruct (H is_tool) as (g & Hg & _ & Hcall).
  specialize (Hcall []).
  assert (E : (g' <- Callable.tool is_tool ;; Callable.call g' [])
              = Callable.call g []) by (rewrite Hg; reflexivity).
  rewrite Hcall in E. discriminate E.
Qed.

(** C7 (amended).  On a callable that has a [__name__] and keeps the
    attributes set on it, as every function made by [def] or [lambda] does,
    the decorator succeeds; applying it twice gives the object that applying
    it once gives, with the same [tool_definition], made of the name, the
    docstring and the declared schemas; and the decorated callable has the
    code of the undecorated one, so that it returns (or raises) the same on
    identical arguments whenever its result does not depend on its own
    [tool_definition]. *)
Theorem tool_idempotent_on_functions (func : Callable.t) (name : pystr)
    (attrs : dict) :
  Callable.__name__ func = Some name ->
  Callable.__dict__ func = Some attrs ->
  exists g : Callable.t,
    Callable.tool func = Return g /\
    Callable.tool g = Return g /\
    Callable.tool_definition g
    = Some (VDict [ (py "name", VStr name);
                    (py "description", Callable.__doc__ func);
                    (py "parameters",
                     Callable.getattr func (py "parameters") (VDict []));
                    (py "returns",
                     Callable.getattr func (py "returns") (VDict [])) ]) /\
    Callable.__call__ g = Callable.__call__ func /\
    ((forall attrs' v kwargs,
         Callable.__call__ func (Dict.set attrs' (py "tool_definition") v) kwargs
         = Callable.__call__ func attrs' kwargs) ->
     forall kwargs, Callable.call g kwargs = Callable.call func kwargs).
Proof.
  intros Hname Hattrs.
  unfold Callable.tool, Callable.get_name, Callable.setattr.
  rewrite Hname, Hattrs. cbn [bind].
  eexists. split; [reflexivity|].
  unfold Callable.getattr, Callable.tool_definition, Callable.call.
  cbn [Callable.__name__ Callable.__dict__ Callable.__doc__ Callable.__call__
       Callable.tp_name bind].
  rewrite Hattrs.
  rewrite !lookup_set_other by (intro E; vm_compute in E; discriminate E).
  rewrite set_set, lookup_set_same.
  split; [reflexivity|]. split; [reflexivity|]. split; [reflexivity|].
  intros Hindependent kwargs. apply Hindependent.
Qed.

Lemma tool_idempotent_on_functions_witness :
  exists g : Callable.t,
    Callable.tool (callable_of add_def) = Return g /\
    Callable.tool g = Return g /\
    Callable.tool_definition g = Some (tool_definition_of add_def) /\
    Callable.call g [(py "x", VInt 5); (py "y", VInt 3)] = Return (VInt 8) /\
    Callable.call (callable_of add_def) [(py "x", VInt 5); (py "y", VInt 3)]
    = Return (VInt 8).
Proof.
  destruct (@tool_idempotent_on_functions (callable_of add_def) (py "add") []
              eq_refl eq_refl) as (g & Hg & Hgg & Hdef & _ & Hcall).
  exists g. split; [exact Hg|]. split; [exact Hgg|]. split; [exact Hdef|].
  assert (Hsame : Callable.call g [(py "x", VInt 5); (py "y", VInt 3)]
                  = Callable.call (callable_of add_def)
                      [(py "x", VInt 5); (py "y", VInt 3)]).
  { apply Hcall. intros attrs' v kwargs. reflexivity. }
  split; [rewrite Hsame|]; reflexivity.
Defined.
